(** * BlackRoad startup metrics: MRR, ARR, churn, runway, headcount

    A shallow embedding of [src/main.py] (class [StartupMetricsService] and the
    schema of [init_db]) and the properties of its derived-metrics engine.

    - Python [float] is IEEE binary64; it is modelled by Rocq's primitive
      [float], whose operations are the same binary64 operations.
    - The SQLite database is modelled as a record of tables, every table a list
      of rows in insertion (rowid) order.
    - A Python call either returns a value or raises: operations return an
      [outcome].
    - The clock ([datetime.utcnow]) and the identifier generator ([uuid.uuid4])
      are inputs of every call, gathered in an [Env]. *)

From Stdlib Require Import ZArith List String Ascii Bool Lia Floats.
From Stdlib Require Import Sorted Permutation.
Import ListNotations.
Set Warnings "-inexact-float".

(** ** Exceptions and outcomes *)

(** The exception classes that matter.  [IntegrityError] is
    [sqlite3.IntegrityError] and [ZeroDivisionError] is Python's own.  The last
    three are the taxonomy of the specification (section 7); [src/main.py]
    defines and raises none of them. *)
Inductive exn : Type :=
| IntegrityError
| ZeroDivisionError
| NotFoundError
| InvalidArgumentError
| StoreError.

Inductive outcome (A : Type) : Type :=
| Ok (a : A)
| Raise (e : exn).
Arguments Ok {A} a.
Arguments Raise {A} e.

Definition bind {A B : Type} (c : outcome A) (k : A -> outcome B) : outcome B :=
  match c with
  | Ok a => k a
  | Raise e => Raise e
  end.

Notation "x <- c ;; k" := (bind c (fun x => k))
  (at level 61, c at next level, right associativity).

Definition raises {A : Type} (c : outcome A) (e : exn) : Prop := c = Raise e.

Definition returns {A : Type} (c : outcome A) : Prop := exists a, c = Ok a.

(** ** Python numbers *)

Module Py.

Local Open Scope Z_scope.

(** [num / den] rounded to the nearest integer, ties to the even one
    ([0 <= num], [0 < den]). *)
Definition round_half_even (num den : Z) : Z :=
  let q := num / den in
  let r := num mod den in
  match 2 * r ?= den with
  | Lt => q
  | Gt => q + 1
  | Eq => if Z.even q then q else q + 1
  end.

(** Exact for [0 <= n <= 2^53]. *)
Definition float_of_Z (n : Z) : float := of_uint63 (Uint63.of_Z n).

(** The binary64 value nearest to the rational [n / d], ties to even, for
    [0 < n], [0 < d] and a quotient in the normal range: the quotient is
    scaled by [2^k] into [[2^52, 2^53)], rounded to an integer there, and
    scaled back. *)
Definition nearest_double (n d : Z) : float :=
  let k0 := 52 - (Z.log2 n - Z.log2 d) in
  let scaled k := if 0 <=? k then (n * 2 ^ k, d) else (n, d * 2 ^ (- k)) in
  let k := let '(a, b) := scaled k0 in if a / b <? 2 ^ 52 then k0 + 1 else k0 in
  let '(a, b) := scaled k in
  Z.ldexp (float_of_Z (round_half_even a b)) (- k).

(** [round(x, ndigits)] on a float, [0 <= ndigits] (CPython's
    [float.__round__]: the exact binary value of [x] is rounded half-even to
    [ndigits] decimals, and the decimal obtained is converted back to the
    nearest float).  NaN, the infinities and the zeros are returned as they
    are, and so is a float that is an integer. *)
Definition round (x : float) (ndigits : Z) : float :=
  match Prim2SF x with
  | S754_finite s m e =>
      if 0 <=? e then x
      else
        let n := round_half_even (Zpos m * 10 ^ ndigits) (2 ^ (- e)) in
        let r := if n =? 0 then zero else nearest_double n (10 ^ ndigits) in
        if s then (- r)%float else r
  | _ => x
  end.

(** [a / b] on two ints: true division, correctly rounded; a zero divisor
    raises. *)
Definition int_truediv (a b : Z) : outcome float :=
  if b =? 0 then Raise ZeroDivisionError
  else if a =? 0 then Ok zero
  else
    let q := nearest_double (Z.abs a) (Z.abs b) in
    Ok (if Bool.eqb (a <? 0) (b <? 0) then q else (- q)%float).

(** [x / y] on two floats; a zero divisor raises. *)
Definition float_truediv (x y : float) : outcome float :=
  if (y =? 0)%float then Raise ZeroDivisionError else Ok (x / y)%float.

(** [max(0, v)]: [v] replaces the first argument only when [v > 0].  (Python
    hands back the int [0] in the other case; it is identified with the float
    [0.0], to which it is equal.) *)
Definition max0 (v : float) : float :=
  if (0 <? v)%float then v else zero.

(** [v or 0.0] on a nullable number: [None] and zero are falsy. *)
Definition or_zero (v : option float) : float :=
  match v with
  | Some x => if (x =? 0)%float then zero else x
  | None => zero
  end.

(** [s or d] on an optional string: [None] and the empty string are falsy. *)
Definition or_str (s : option string) (d : string) : string :=
  match s with
  | Some EmptyString | None => d
  | Some x => x
  end.

End Py.

(** ** SQLite text: comparison and LIKE *)

Module Sql.

(** [a < b] on TEXT under the default BINARY collation: byte-wise
    lexicographic order, a proper prefix first. *)
Definition text_lt (a b : string) : bool := String.ltb a b.

Definition text_le (a b : string) : bool := String.leb a b.

(** ASCII upper-casing, the case folding of LIKE. *)
Definition upper (c : ascii) : ascii :=
  let n := nat_of_ascii c in
  if (97 <=? n)%nat && (n <=? 122)%nat then ascii_of_nat (n - 32) else c.

(** [t LIKE p] with SQLite's defaults: [%] matches any run of characters,
    [_] any one character, every other character itself up to ASCII case;
    there is no escape character.  (The timestamps matched here are ASCII, so
    a character is a byte.) *)
Fixpoint like (p : string) : string -> bool :=
  match p with
  | EmptyString => fun t => match t with EmptyString => true | _ => false end
  | String c p' =>
      if Ascii.eqb c "%" then
        fix any (t : string) : bool :=
          like p' t || match t with
                       | EmptyString => false
                       | String _ t' => any t'
                       end
      else if Ascii.eqb c "_" then
        fun t => match t with
                 | EmptyString => false
                 | String _ t' => like p' t'
                 end
      else
        fun t => match t with
                 | EmptyString => false
                 | String d t' => Ascii.eqb (upper c) (upper d) && like p' t'
                 end
  end.

(** A float bound to a REAL column: SQLite turns NaN into NULL, and keeps an
    integral real as an integer, which drops the sign of zero. *)
Definition real (v : float) : option float :=
  if is_nan v then None
  else if (v =? 0)%float then Some zero
  else Some v.

(** A NOT NULL column refuses NULL. *)
Definition not_null {A : Type} (v : option A) : outcome A :=
  match v with
  | Some a => Ok a
  | None => Raise IntegrityError
  end.

(** INSERT into a table whose PRIMARY KEY is [key].  Foreign keys are
    declared by the schema but not enforced: [get_conn] never issues
    [PRAGMA foreign_keys=ON], and SQLite's default is off. *)
Definition insert {row : Type} (key : row -> string) (r : row)
    (table : list row) : outcome (list row) :=
  if existsb (fun x => String.eqb (key x) (key r)) table
  then Raise IntegrityError
  else Ok (table ++ [r]).

(** [SUM(col)]: NULL over no row; the values are accumulated in row order
    from [0.0]; a NaN result is returned as NULL. *)
Definition sum (xs : list float) : option float :=
  match xs with
  | [] => None
  | _ =>
      let s := fold_left PrimFloat.add xs zero in
      if is_nan s then None else Some s
  end.

(** [COUNT( * )]. *)
Definition count {row : Type} (rows : list row) : Z :=
  Z.of_nat (List.length rows).

End Sql.

(** ** The record store *)

(** One record per table of [init_db], columns in schema order.  A nullable
    column is an [option]. *)

Record startup_row : Type := {
  s_id : string;
  s_name : string;
  s_stage : string;
  s_founded_date : option string;
  s_created_at : string;
  s_updated_at : string
}.

Record metric_row : Type := {
  m_id : string;
  m_startup_id : string;
  m_metric_type : string;
  m_value : float;
  m_period : string;
  m_notes : option string;
  m_recorded_at : string
}.

Record customer_row : Type := {
  c_id : string;
  c_startup_id : string;
  c_name : string;
  c_plan : string;
  c_mrr : float;
  c_status : string;
  c_started_at : string;
  c_churned_at : option string;
  c_notes : option string
}.

Record employee_row : Type := {
  e_id : string;
  e_startup_id : string;
  e_name : string;
  e_role : string;
  e_department : string;
  e_salary : float;
  e_hired_at : string;
  e_left_at : option string
}.

(** [f_investors] is kept as the list that [json.dumps] serialises. *)
Record funding_row : Type := {
  f_id : string;
  f_startup_id : string;
  f_round_name : string;
  f_amount : float;
  f_valuation : option float;
  f_closed_at : string;
  f_investors : list string;
  f_notes : option string
}.

Record Store : Type := {
  startups : list startup_row;
  metrics : list metric_row;
  customers : list customer_row;
  employees : list employee_row;
  funding_rounds : list funding_row
}.

(** The database [init_db] creates on a fresh file: five empty tables. *)
Definition init_db : Store :=
  {| startups := []; metrics := []; customers := []; employees := [];
     funding_rounds := [] |}.

Definition set_startups (st : Store) (t : list startup_row) : Store :=
  {| startups := t; metrics := metrics st; customers := customers st;
     employees := employees st; funding_rounds := funding_rounds st |}.

Definition set_metrics (st : Store) (t : list metric_row) : Store :=
  {| startups := startups st; metrics := t; customers := customers st;
     employees := employees st; funding_rounds := funding_rounds st |}.

Definition set_customers (st : Store) (t : list customer_row) : Store :=
  {| startups := startups st; metrics := metrics st; customers := t;
     employees := employees st; funding_rounds := funding_rounds st |}.

Definition set_employees (st : Store) (t : list employee_row) : Store :=
  {| startups := startups st; metrics := metrics st; customers := customers st;
     employees := t; funding_rounds := funding_rounds st |}.

Definition set_funding_rounds (st : Store) (t : list funding_row) : Store :=
  {| startups := startups st; metrics := metrics st; customers := customers st;
     employees := employees st; funding_rounds := t |}.

(** What the environment hands to one call: the identifier [uuid.uuid4()]
    generates, and the clock read as [utcnow().isoformat()] and as
    [utcnow().strftime("%Y-%m")]. *)
Record Env : Type := {
  uuid4 : string;
  utcnow_isoformat : string;
  utcnow_year_month : string
}.

(** ** Values returned by the service *)

Record customer_dict : Type := {
  cd_id : string; cd_name : string; cd_mrr : float; cd_plan : string
}.

Record employee_dict : Type := {
  ed_id : string; ed_name : string; ed_role : string;
  ed_department : string; ed_salary : float
}.

Record funding_dict : Type := {
  fd_id : string; fd_round : string; fd_amount : float;
  fd_valuation : option float
}.

Record churn_dict : Type := {
  period : string;
  customers_at_start : Z;
  churned : Z;
  churn_rate_pct : float
}.

(** [runway_months] is a float or the string that stands for "no end". *)
Inductive months : Type :=
| Months (m : float)
| Infinite.

Record runway_dict : Type := {
  total_raised : float;
  mrr : float;
  monthly_burn : float;
  net_burn : float;
  runway_months : months
}.

Record department_dict : Type := {
  count : Z;
  salary : float
}.

(** [by_department] is a dict with one entry per department. *)
Record headcount_dict : Type := {
  total_headcount : Z;
  total_salary_cost : float;
  by_department : list (string * department_dict)
}.

(** The value under ["runway"] is a dict: the runway result, or the empty dict
    [{}], here [None]. *)
Record dashboard_dict : Type := {
  d_startup : string;
  d_mrr : float;
  d_arr : float;
  d_churn : churn_dict;
  d_runway : option runway_dict;
  d_headcount : headcount_dict;
  d_as_of : string
}.

(** ** The service: writes *)

(** Every write runs in [with get_conn() as conn]: it commits when the INSERT
    or UPDATE succeeds and rolls back when it raises, so a call that raises
    leaves the store as it was. *)

Definition create_startup (env : Env) (st : Store) (name stage : string)
    (founded_date : option string) : outcome (startup_row * Store) :=
  let sid := uuid4 env in
  let now := utcnow_isoformat env in
  let row := {| s_id := sid; s_name := name; s_stage := stage;
                s_founded_date := founded_date;
                s_created_at := now; s_updated_at := now |} in
  t <- Sql.insert s_id row (startups st) ;;
  Ok (row, set_startups st t).

Definition record_metric (env : Env) (st : Store) (startup_id metric_type : string)
    (value : float) (period : option string) (notes : string)
    : outcome (metric_row * Store) :=
  let mid := uuid4 env in
  let now := utcnow_isoformat env in
  let period := Py.or_str period (utcnow_year_month env) in
  v <- Sql.not_null (Sql.real value) ;;
  t <- Sql.insert m_id
         {| m_id := mid; m_startup_id := startup_id; m_metric_type := metric_type;
            m_value := v; m_period := period; m_notes := Some notes;
            m_recorded_at := now |} (metrics st) ;;
  Ok ({| m_id := mid; m_startup_id := startup_id; m_metric_type := metric_type;
         m_value := value; m_period := period; m_notes := Some notes;
         m_recorded_at := now |}, set_metrics st t).

(** The INSERT names no [status], [churned_at] or [notes]: the row takes the
    column defaults ['active'], NULL and ['']. *)
Definition add_customer (env : Env) (st : Store) (startup_id name : string)
    (mrr : float) (plan : string) : outcome (customer_dict * Store) :=
  let cid := uuid4 env in
  let now := utcnow_isoformat env in
  v <- Sql.not_null (Sql.real mrr) ;;
  t <- Sql.insert c_id
         {| c_id := cid; c_startup_id := startup_id; c_name := name;
            c_plan := plan; c_mrr := v; c_status := "active";
            c_started_at := now; c_churned_at := None; c_notes := Some EmptyString |}
         (customers st) ;;
  Ok ({| cd_id := cid; cd_name := name; cd_mrr := mrr; cd_plan := plan |},
      set_customers st t).

Definition churn_customer (env : Env) (st : Store) (customer_id : string)
    : outcome (unit * Store) :=
  let now := utcnow_isoformat env in
  Ok (tt,
      set_customers st
        (map (fun c =>
                if String.eqb (c_id c) customer_id
                then {| c_id := c_id c; c_startup_id := c_startup_id c;
                        c_name := c_name c; c_plan := c_plan c; c_mrr := c_mrr c;
                        c_status := "churned"; c_started_at := c_started_at c;
                        c_churned_at := Some now; c_notes := c_notes c |}
                else c)
           (customers st))).

Definition add_employee (env : Env) (st : Store) (startup_id name role : string)
    (department : string) (salary : float) : outcome (employee_dict * Store) :=
  let eid := uuid4 env in
  let now := utcnow_isoformat env in
  v <- Sql.not_null (Sql.real salary) ;;
  t <- Sql.insert e_id
         {| e_id := eid; e_startup_id := startup_id; e_name := name;
            e_role := role; e_department := department; e_salary := v;
            e_hired_at := now; e_left_at := None |} (employees st) ;;
  Ok ({| ed_id := eid; ed_name := name; ed_role := role;
         ed_department := department; ed_salary := salary |},
      set_employees st t).

Definition add_funding (env : Env) (st : Store) (startup_id round_name : string)
    (amount : float) (valuation : option float) (investors : option (list string))
    : outcome (funding_dict * Store) :=
  let fid := uuid4 env in
  let now := utcnow_isoformat env in
  let invs := match investors with Some (x :: l) => x :: l | _ => [] end in
  v <- Sql.not_null (Sql.real amount) ;;
  t <- Sql.insert f_id
         {| f_id := fid; f_startup_id := startup_id; f_round_name := round_name;
            f_amount := v;
            f_valuation := match valuation with Some x => Sql.real x | None => None end;
            f_closed_at := now; f_investors := invs; f_notes := Some EmptyString |}
         (funding_rounds st) ;;
  Ok ({| fd_id := fid; fd_round := round_name; fd_amount := amount;
         fd_valuation := valuation |},
      set_funding_rounds st t).

(** ** The service: queries *)

Definition calculate_mrr (st : Store) (startup_id : string) : outcome float :=
  let total :=
    Sql.sum (map c_mrr
               (filter (fun c => String.eqb (c_startup_id c) startup_id
                                 && String.eqb (c_status c) "active")
                  (customers st))) in
  Ok (Py.round (Py.or_zero total) 2).

Definition calculate_arr (st : Store) (startup_id : string) : outcome float :=
  m <- calculate_mrr st startup_id ;;
  Ok (Py.round (m * 12)%float 2).

Definition calculate_churn_rate (env : Env) (st : Store) (startup_id : string)
    (period : option string) : outcome churn_dict :=
  let period := Py.or_str period (utcnow_year_month env) in
  let total_start :=
    Sql.count
      (filter (fun c => String.eqb (c_startup_id c) startup_id
                        && Sql.text_lt (c_started_at c) (period ++ "-01"))
         (customers st)) in
  let churned :=
    Sql.count
      (filter (fun c => String.eqb (c_startup_id c) startup_id
                        && String.eqb (c_status c) "churned"
                        && match c_churned_at c with
                           | Some t => Sql.like (period ++ "%") t
                           | None => false
                           end)
         (customers st)) in
  rate <- (if (0 <? total_start)%Z
           then q <- Py.int_truediv churned total_start ;; Ok (q * 100)%float
           else Ok zero) ;;
  Ok {| period := period;
        customers_at_start := total_start;
        churned := churned;
        churn_rate_pct := Py.round rate 2 |}.

Definition calculate_runway (st : Store) (startup_id : string)
    (monthly_burn : float) : outcome runway_dict :=
  let total_raised :=
    Py.or_zero
      (Sql.sum (map f_amount
                  (filter (fun f => String.eqb (f_startup_id f) startup_id)
                     (funding_rounds st)))) in
  mrr <- calculate_mrr st startup_id ;;
  let net_burn := Py.max0 (monthly_burn - mrr)%float in
  runway_months <- (if (0 <? net_burn)%float
                    then Py.float_truediv total_raised net_burn
                    else Ok infinity) ;;
  Ok {| total_raised := Py.round total_raised 2;
        mrr := mrr;
        monthly_burn := monthly_burn;
        net_burn := Py.round net_burn 2;
        runway_months :=
          if negb (runway_months =? infinity)%float
          then Months (Py.round runway_months 1)
          else Infinite |}.

(** The rows of [GROUP BY department]: one per department that has a current
    employee.  SQL leaves their order open. *)
Definition group_by_department (rows : list employee_row)
    : list (string * (Z * option float)) :=
  map (fun d =>
         let g := filter (fun e => String.eqb (e_department e) d) rows in
         (d, (Sql.count g, Sql.sum (map e_salary g))))
    (nodup string_dec (map e_department rows)).

Definition headcount (st : Store) (startup_id : string) : outcome headcount_dict :=
  let current :=
    filter (fun e => String.eqb (e_startup_id e) startup_id
                     && match e_left_at e with None => true | Some _ => false end)
      (employees st) in
  let rows := group_by_department current in
  Ok {| total_headcount := Sql.count current;
        total_salary_cost := Py.round (Py.or_zero (Sql.sum (map e_salary current))) 2;
        by_department :=
          map (fun r => (fst r, {| count := fst (snd r);
                                   salary := Py.round (Py.or_zero (snd (snd r))) 2 |}))
            rows |}.

Definition kpi_dashboard (env : Env) (st : Store) (startup_id : string)
    (monthly_burn : float) : outcome dashboard_dict :=
  mrr <- calculate_mrr st startup_id ;;
  arr <- calculate_arr st startup_id ;;
  churn <- calculate_churn_rate env st startup_id None ;;
  runway <- (if (0 <? monthly_burn)%float
             then r <- calculate_runway st startup_id monthly_burn ;; Ok (Some r)
             else Ok None) ;;
  hc <- headcount st startup_id ;;
  let row := find (fun s => String.eqb (s_id s) startup_id) (startups st) in
  let startup_name := match row with Some s => s_name s | None => "Unknown"%string end in
  Ok {| d_startup := startup_name;
        d_mrr := mrr;
        d_arr := arr;
        d_churn := churn;
        d_runway := runway;
        d_headcount := hc;
        d_as_of := utcnow_isoformat env |}.

(** [monthly_burn] defaults to [0]. *)
Definition kpi_dashboard_default (env : Env) (st : Store) (startup_id : string)
    : outcome dashboard_dict :=
  kpi_dashboard env st startup_id zero.

(** [ORDER BY period]: ascending in the text order. *)
Fixpoint insert_by_period (r : metric_row) (l : list metric_row) : list metric_row :=
  match l with
  | [] => [r]
  | x :: l' =>
      if Sql.text_le (m_period r) (m_period x) then r :: l
      else x :: insert_by_period r l'
  end.

Definition order_by_period (l : list metric_row) : list metric_row :=
  fold_right insert_by_period [] l.

Definition metric_history (st : Store) (startup_id metric_type : string)
    : outcome (list metric_row) :=
  Ok (order_by_period
        (filter (fun m => String.eqb (m_startup_id m) startup_id
                          && String.eqb (m_metric_type m) metric_type)
           (metrics st))).

(** ** The store as a state machine *)

(** The calls that write.  The queries above take the store and give none
    back. *)
Inductive call : Type :=
| CreateStartup (name stage : string) (founded_date : option string)
| RecordMetric (startup_id metric_type : string) (value : float)
    (period : option string) (notes : string)
| AddCustomer (startup_id name : string) (mrr : float) (plan : string)
| ChurnCustomer (customer_id : string)
| AddEmployee (startup_id name role department : string) (salary : float)
| AddFunding (startup_id round_name : string) (amount : float)
    (valuation : option float) (investors : option (list string)).

(** The store a call leaves behind: the new one when it returns, the old one
    when it raises. *)
Definition after {A : Type} (c : outcome (A * Store)) (st : Store) : Store :=
  match c with
  | Ok (_, st') => st'
  | Raise _ => st
  end.

Definition exec (env : Env) (c : call) (st : Store) : Store :=
  match c with
  | CreateStartup name stage founded_date =>
      after (create_startup env st name stage founded_date) st
  | RecordMetric startup_id metric_type value period notes =>
      after (record_metric env st startup_id metric_type value period notes) st
  | AddCustomer startup_id name mrr plan =>
      after (add_customer env st startup_id name mrr plan) st
  | ChurnCustomer customer_id =>
      after (churn_customer env st customer_id) st
  | AddEmployee startup_id name role department salary =>
      after (add_employee env st startup_id name role department salary) st
  | AddFunding startup_id round_name amount valuation investors =>
      after (add_funding env st startup_id round_name amount valuation investors) st
  end.

Inductive reachable : Store -> Prop :=
| reachable_init : reachable init_db
| reachable_exec : forall env c st, reachable st -> reachable (exec env c st).

(** The Customer invariant: [churned_at] is set exactly when [status] is
    ['churned']. *)
Definition churned_at_iff_churned (c : customer_row) : Prop :=
  c_churned_at c <> None <-> c_status c = "churned"%string.

(** ** Specification-side definitions *)

(** The Customers of a Startup that are active. *)
Definition active_customers (st : Store) (startup_id : string) : list customer_row :=
  filter (fun c => String.eqb (c_startup_id c) startup_id
                   && String.eqb (c_status c) "active")
    (customers st).

(** The sum of [mrr] over the active Customers of a Startup, taken one
    Customer after the other; the empty set sums to 0. *)
Fixpoint sum_mrr_from (acc : float) (cs : list customer_row) : float :=
  match cs with
  | [] => acc
  | c :: cs' => sum_mrr_from (acc + c_mrr c)%float cs'
  end.

Definition sum_active_mrr (st : Store) (startup_id : string) : float :=
  sum_mrr_from zero (active_customers st startup_id).

(** The sum of the amounts of all FundingRounds of a Startup, without any
    filter on the date; 0 when there is none. *)
Definition lifetime_raised (st : Store) (startup_id : string) : float :=
  Py.or_zero
    (Sql.sum (map f_amount
                (filter (fun f => String.eqb (f_startup_id f) startup_id)
                   (funding_rounds st)))).

(** [a] comes no later than [b] in the order of their period strings. *)
Definition period_le (a b : metric_row) : Prop :=
  Sql.text_le (m_period a) (m_period b) = true.

(** The day of the month as [isoformat] prints it: two digits. *)
Definition two_digits (d : nat) : string :=
  String (ascii_of_nat (48 + d / 10)) (String (ascii_of_nat (48 + d mod 10)) EmptyString).

(** The [isoformat] timestamp of day [d] of the month [period] (a [YYYY-MM]),
    at the time of day [time]. *)
Definition timestamp_in (period : string) (d : nat) (time : string) : string :=
  (period ++ "-" ++ two_digits d ++ "T" ++ time)%string.

(** No primary key of the table equals [k]. *)
Definition fresh {row : Type} (key : row -> string) (k : string) (table : list row) : Prop :=
  existsb (fun x => String.eqb (key x) k) table = false.

(** No Startup has the identifier, and no stored row refers to it. *)
Definition unknown_startup (st : Store) (startup_id : string) : Prop :=
  (forall s, In s (startups st) -> s_id s <> startup_id) /\
  (forall c, In c (customers st) -> c_startup_id c <> startup_id) /\
  (forall e, In e (employees st) -> e_startup_id e <> startup_id) /\
  (forall f, In f (funding_rounds st) -> f_startup_id f <> startup_id).

(** The customer started on a day of the month [per]. *)
Definition started_in (per : string) (c : customer_row) : Prop :=
  exists d time, (1 <= d <= 31)%nat /\ c_started_at c = timestamp_in per d time.

(** The customer is churned, with a churn timestamp in the month [per]. *)
Definition churned_in (per : string) (c : customer_row) : Prop :=
  c_status c = "churned"%string /\
  exists rest, c_churned_at c = Some (per ++ rest)%string.

(** ** Sample data *)

Definition env_at (id now month : string) : Env :=
  {| uuid4 := id; utcnow_isoformat := now; utcnow_year_month := month |}.

Definition pre_period_customer : customer_row :=
  {| c_id := "c0"; c_startup_id := "s1"; c_name := "Early"; c_plan := "monthly";
     c_mrr := 100; c_status := "active"; c_started_at := "2024-04-10T08:00:00";
     c_churned_at := None; c_notes := Some EmptyString |}.

Definition one_customer_store : Store :=
  set_customers init_db [pre_period_customer].

Definition same_period_customer : customer_row :=
  {| c_id := "c1"; c_startup_id := "s1"; c_name := "Soon Gone"; c_plan := "monthly";
     c_mrr := 200; c_status := "churned";
     c_started_at := timestamp_in "2024-05" 2 "09:00:00";
     c_churned_at := Some "2024-05-20T10:00:00"%string;
     c_notes := Some EmptyString |}.

Definition active_customer (id : string) (amount : float) : customer_row :=
  {| c_id := id; c_startup_id := "s1"; c_name := "Customer"; c_plan := "monthly";
     c_mrr := amount; c_status := "active"; c_started_at := "2024-04-10T08:00:00";
     c_churned_at := None; c_notes := Some EmptyString |}.

(** Customer A at 500, Customer B at 300, and a churned customer at 200. *)
Definition three_customer_store : Store :=
  set_customers init_db
    [active_customer "a" 500; active_customer "b" 300; same_period_customer].

(** One active customer paying 0.1 a month. *)
Definition dime_store : Store :=
  set_customers init_db [active_customer "a" 0.1].

Definition seed_round (amount : float) : funding_row :=
  {| f_id := "f1"; f_startup_id := "s1"; f_round_name := "Seed"; f_amount := amount;
     f_valuation := None; f_closed_at := "2024-01-15T12:00:00"; f_investors := [];
     f_notes := Some EmptyString |}.

(** A startup that raised 1.0 and has no customer. *)
Definition unit_raise_store : Store :=
  set_funding_rounds init_db [seed_round 1].

(** A startup that raised 500000 and has no customer. *)
Definition seed_store : Store :=
  set_funding_rounds init_db [seed_round 500000].

(** The store after [create_startup("TestCorp", stage="series_a")] gave the
    identifier [s1]. *)
Definition testcorp_store : Store :=
  set_startups init_db
    [{| s_id := "s1"; s_name := "TestCorp"; s_stage := "series_a";
        s_founded_date := None; s_created_at := "2024-01-01T00:00:00";
        s_updated_at := "2024-01-01T00:00:00" |}].

(** ** The rest of the service *)

(** [ORDER BY created_at DESC]: descending in the text order. *)
Fixpoint insert_by_created_desc (r : startup_row) (l : list startup_row)
    : list startup_row :=
  match l with
  | [] => [r]
  | x :: l' =>
      if Sql.text_le (s_created_at x) (s_created_at r) then r :: l
      else x :: insert_by_created_desc r l'
  end.

Definition order_by_created_desc (l : list startup_row) : list startup_row :=
  fold_right insert_by_created_desc [] l.

Definition list_startups (st : Store) : outcome (list startup_row) :=
  Ok (order_by_created_desc (startups st)).

(** [Metric.from_row]: the columns of the row, with [row["notes"] or ""]. *)
Definition Metric_from_row (row : metric_row) : metric_row :=
  {| m_id := m_id row; m_startup_id := m_startup_id row;
     m_metric_type := m_metric_type row; m_value := m_value row;
     m_period := m_period row;
     m_notes := Some (Py.or_str (m_notes row) EmptyString);
     m_recorded_at := m_recorded_at row |}.

(** ** More specification-side definitions *)

(** [a] was created no earlier than [b], in the order of the timestamps. *)
Definition created_ge (a b : startup_row) : Prop :=
  Sql.text_le (s_created_at b) (s_created_at a) = true.

(** A digit or a hyphen: the characters of a [YYYY-MM] period. *)
Definition plain_char (c : ascii) : bool :=
  let n := nat_of_ascii c in
  ((48 <=? n)%nat && (n <=? 57)%nat) || (n =? 45)%nat.

Fixpoint plain (p : string) : bool :=
  match p with
  | EmptyString => true
  | String c p' => plain_char c && plain p'
  end.

(** Every table has pairwise distinct primary keys. *)
Definition keys_unique (st : Store) : Prop :=
  NoDup (map s_id (startups st)) /\
  NoDup (map m_id (metrics st)) /\
  NoDup (map c_id (customers st)) /\
  NoDup (map e_id (employees st)) /\
  NoDup (map f_id (funding_rounds st)).

(** Whether a call writes a row of the startup [startup_id]: the startup it
    creates, the startup it inserts for, or the startup of a customer it
    churns. *)
Definition touches (env : Env) (st : Store) (c : call) (startup_id : string) : bool :=
  match c with
  | CreateStartup _ _ _ => String.eqb (uuid4 env) startup_id
  | RecordMetric a _ _ _ _ => String.eqb a startup_id
  | AddCustomer a _ _ _ => String.eqb a startup_id
  | ChurnCustomer customer_id =>
      existsb (fun c => String.eqb (c_id c) customer_id
                        && String.eqb (c_startup_id c) startup_id)
        (customers st)
  | AddEmployee a _ _ _ _ => String.eqb a startup_id
  | AddFunding a _ _ _ _ => String.eqb a startup_id
  end.

(** Two stores answer every query about the startup alike. *)
Definition same_view (st st' : Store) (startup_id : string) : Prop :=
  calculate_mrr st' startup_id = calculate_mrr st startup_id /\
  calculate_arr st' startup_id = calculate_arr st startup_id /\
  (forall env p, calculate_churn_rate env st' startup_id p =
                 calculate_churn_rate env st startup_id p) /\
  (forall burn, calculate_runway st' startup_id burn =
                calculate_runway st startup_id burn) /\
  headcount st' startup_id = headcount st startup_id /\
  (forall env burn, kpi_dashboard env st' startup_id burn =
                    kpi_dashboard env st startup_id burn) /\
  (forall metric_type, metric_history st' startup_id metric_type =
                       metric_history st startup_id metric_type).

(** The sum of the [count] entries of a [by_department] dict. *)
Definition sum_counts (l : list (string * department_dict)) : Z :=
  fold_right (fun e acc => (count (snd e) + acc)%Z) 0%Z l.

(** The number of rows of a department among [rows]. *)
Definition department_size (rows : list employee_row) (d : string) : Z :=
  Sql.count (filter (fun e => String.eqb (e_department e) d) rows).

(** The employees of a startup that have not left. *)
Definition current_employees (st : Store) (startup_id : string) : list employee_row :=
  filter (fun e => String.eqb (e_startup_id e) startup_id
                   && match e_left_at e with None => true | Some _ => false end)
    (employees st).

(** Two stores hold the same rows of the startup, table by table. *)
Definition rows_agree (st st' : Store) (startup_id : string) : Prop :=
  find (fun s => String.eqb (s_id s) startup_id) (startups st') =
    find (fun s => String.eqb (s_id s) startup_id) (startups st) /\
  filter (fun m => String.eqb (m_startup_id m) startup_id) (metrics st') =
    filter (fun m => String.eqb (m_startup_id m) startup_id) (metrics st) /\
  filter (fun c => String.eqb (c_startup_id c) startup_id) (customers st') =
    filter (fun c => String.eqb (c_startup_id c) startup_id) (customers st) /\
  filter (fun e => String.eqb (e_startup_id e) startup_id) (employees st') =
    filter (fun e => String.eqb (e_startup_id e) startup_id) (employees st) /\
  filter (fun f => String.eqb (f_startup_id f) startup_id) (funding_rounds st') =
    filter (fun f => String.eqb (f_startup_id f) startup_id) (funding_rounds st).

(** The customers of a startup that started before the first day of the
    period: the cohort at the start. *)
Definition pre_period_cohort (cs : list customer_row) (startup_id per : string)
    : list customer_row :=
  filter (fun c => String.eqb (c_startup_id c) startup_id
                   && Sql.text_lt (c_started_at c) (per ++ "-01"))
    cs.

(** The customers of a startup that are churned, with a churn timestamp that
    matches the period. *)
Definition churned_within (cs : list customer_row) (startup_id per : string)
    : list customer_row :=
  filter (fun c => String.eqb (c_startup_id c) startup_id
                   && String.eqb (c_status c) "churned"
                   && match c_churned_at c with
                      | Some t => Sql.like (per ++ "%") t
                      | None => false
                      end)
    cs.

(** TestCorp with two active customers, a churned one, an employee and a seed
    round. *)
Definition populated_store : Store :=
  {| startups := startups testcorp_store;
     metrics := [];
     customers :=
       [active_customer "a" 500; active_customer "b" 300; same_period_customer];
     employees :=
       [{| e_id := "e1"; e_startup_id := "s1"; e_name := "Alice";
           e_role := "Engineer"; e_department := "eng"; e_salary := 120000;
           e_hired_at := "2024-02-01T09:00:00"; e_left_at := None |}];
     funding_rounds := [seed_round 500000] |}.

(** * Properties *)

(** ** Numbers *)

(** A float above zero is not zero: the guard [net_burn > 0] keeps the
    division away from a zero divisor. *)
Lemma positive_not_zero (x : float) :
  (0 <? x)%float = true -> (x =? 0)%float = false.
Proof.
  rewrite ltb_spec, eqb_spec.
  change (Prim2SF 0) with (S754_zero false).
  destruct (Prim2SF x) as [s | s | | s m e]; try destruct s; cbv; congruence.
Qed.

Lemma real_of_number (v : float) :
  is_nan v = false ->
  Sql.real v = Some (if (v =? 0)%float then zero else v).
Proof.
  intros H. unfold Sql.real. rewrite H. destruct (v =? 0)%float; reflexivity.
Qed.

Lemma insert_fresh {row : Type} (key : row -> string) (r : row) (table : list row) :
  fresh key (key r) table -> Sql.insert key r table = Ok (table ++ [r]).
Proof. unfold fresh, Sql.insert. intros ->. reflexivity. Qed.

(** ** metric_history *)

Lemma insert_by_period_perm (r : metric_row) (l : list metric_row) :
  Permutation (insert_by_period r l) (r :: l).
Proof.
  induction l as [| x l IH]; simpl.
  - apply Permutation_refl.
  - destruct (Sql.text_le (m_period r) (m_period x)).
    + apply Permutation_refl.
    + apply Permutation_trans with (x :: r :: l).
      * apply perm_skip. exact IH.
      * apply perm_swap.
Qed.

Lemma order_by_period_perm (l : list metric_row) :
  Permutation (order_by_period l) l.
Proof.
  induction l as [| x l IH]; simpl.
  - apply perm_nil.
  - apply Permutation_trans with (x :: order_by_period l).
    + apply insert_by_period_perm.
    + apply perm_skip. exact IH.
Qed.

Lemma insert_by_period_hd (a r : metric_row) (l : list metric_row) :
  period_le a r -> HdRel period_le a l -> HdRel period_le a (insert_by_period r l).
Proof.
  intros Har Hal. destruct l as [| x l]; simpl.
  - constructor. exact Har.
  - destruct (Sql.text_le (m_period r) (m_period x)).
    + constructor. exact Har.
    + constructor. inversion Hal; assumption.
Qed.

Lemma insert_by_period_sorted (r : metric_row) (l : list metric_row) :
  Sorted period_le l -> Sorted period_le (insert_by_period r l).
Proof.
  induction l as [| x l IH]; simpl; intros Hs.
  - constructor; constructor.
  - destruct (Sql.text_le (m_period r) (m_period x)) eqn:Hle.
    + constructor; [exact Hs | constructor; exact Hle].
    + inversion Hs as [| ? ? Hs' Hhd]; subst.
      constructor.
      * apply IH. exact Hs'.
      * apply insert_by_period_hd; [| exact Hhd].
        unfold period_le, Sql.text_le in *.
        destruct (String.leb_total (m_period x) (m_period r)) as [H | H]; congruence.
Qed.

Lemma order_by_period_sorted (l : list metric_row) :
  Sorted period_le (order_by_period l).
Proof.
  induction l as [| x l IH]; simpl.
  - constructor.
  - apply insert_by_period_sorted. exact IH.
Qed.

(** C10: whatever the order in which the metrics were recorded,
    [metric_history] returns exactly the recorded observations of the label
    for the startup (each as often as it was recorded), in non-decreasing
    order of their period strings. *)
Theorem metric_history_ascending (st : Store) (startup_id metric_type : string) :
  exists rows,
    metric_history st startup_id metric_type = Ok rows /\
    Sorted period_le rows /\
    Permutation rows
      (filter (fun m => String.eqb (m_startup_id m) startup_id
                        && String.eqb (m_metric_type m) metric_type)
         (metrics st)).
Proof.
  eexists. split; [reflexivity |]. split.
  - apply order_by_period_sorted.
  - apply order_by_period_perm.
Qed.

(** ** The Customer invariant *)

Lemma add_customer_row (env : Env) (st st' : Store) (startup_id name plan : string)
    (mrr : float) (d : customer_dict) :
  add_customer env st startup_id name mrr plan = Ok (d, st') ->
  exists row,
    customers st' = customers st ++ [row] /\
    c_status row = "active"%string /\ c_churned_at row = None.
Proof.
  unfold add_customer. destruct (Sql.real mrr) as [v |]; simpl; [| discriminate].
  unfold Sql.insert. destruct (existsb _ _); simpl; [discriminate |].
  intros H. injection H as _ <-. eexists. split; [reflexivity |]. split; reflexivity.
Qed.

Lemma add_customer_preserves (env : Env) (st : Store) (startup_id name plan : string)
    (mrr : float) :
  Forall churned_at_iff_churned (customers st) ->
  Forall churned_at_iff_churned
    (customers (after (add_customer env st startup_id name mrr plan) st)).
Proof.
  intros Hst.
  destruct (add_customer env st startup_id name mrr plan) as [[d st'] | e] eqn:E;
    simpl; [| exact Hst].
  apply add_customer_row in E. destruct E as (row & -> & Hs & Hc).
  apply Forall_app. split; [exact Hst |].
  constructor; [| constructor].
  unfold churned_at_iff_churned. rewrite Hs, Hc. split; intros H.
  - contradiction.
  - discriminate.
Qed.

Lemma churn_customer_preserves (env : Env) (st : Store) (customer_id : string) :
  Forall churned_at_iff_churned (customers st) ->
  Forall churned_at_iff_churned
    (customers (after (churn_customer env st customer_id) st)).
Proof.
  intros Hst. simpl. induction (customers st) as [| c l IH]; simpl.
  - constructor.
  - inversion Hst; subst. constructor; [| apply IH; assumption].
    destruct (String.eqb (c_id c) customer_id); [| assumption].
    unfold churned_at_iff_churned; simpl. split; intros _; [reflexivity | discriminate].
Qed.

Lemma other_tables_preserve {A : Type} (c : outcome (A * Store)) (st : Store) :
  (forall a st', c = Ok (a, st') -> customers st' = customers st) ->
  customers (after c st) = customers st.
Proof.
  intros H. destruct c as [[a st'] | e]; simpl; [| reflexivity].
  apply (H a). reflexivity.
Qed.

Lemma exec_preserves (env : Env) (c : call) (st : Store) :
  Forall churned_at_iff_churned (customers st) ->
  Forall churned_at_iff_churned (customers (exec env c st)).
Proof.
  intros Hst. destruct c; simpl.
  - rewrite other_tables_preserve; [exact Hst |].
    unfold create_startup. intros a st'.
    destruct (Sql.insert _ _ _); simpl; [| discriminate].
    intros H; injection H as _ <-; reflexivity.
  - rewrite other_tables_preserve; [exact Hst |].
    unfold record_metric. intros a st'.
    destruct (Sql.not_null _); simpl; [| discriminate].
    destruct (Sql.insert _ _ _); simpl; [| discriminate].
    intros H; injection H as _ <-; reflexivity.
  - apply add_customer_preserves. exact Hst.
  - apply churn_customer_preserves. exact Hst.
  - rewrite other_tables_preserve; [exact Hst |].
    unfold add_employee. intros a st'.
    destruct (Sql.not_null _); simpl; [| discriminate].
    destruct (Sql.insert _ _ _); simpl; [| discriminate].
    intros H; injection H as _ <-; reflexivity.
  - rewrite other_tables_preserve; [exact Hst |].
    unfold add_funding. intros a st'.
    destruct (Sql.not_null _); simpl; [| discriminate].
    destruct (Sql.insert _ _ _); simpl; [| discriminate].
    intros H; injection H as _ <-; reflexivity.
Qed.

Lemma churn_customer_row (env : Env) (st st' : Store) (customer_id : string) (u : unit) :
  churn_customer env st customer_id = Ok (u, st') ->
  forall c, In c (customers st') -> c_id c = customer_id ->
            c_status c = "churned"%string /\
            c_churned_at c = Some (utcnow_isoformat env).
Proof.
  unfold churn_customer. intros H. injection H as _ <-. simpl customers.
  intros c Hin Hc. apply in_map_iff in Hin. destruct Hin as (c0 & Hf & _).
  destruct (String.eqb_spec (c_id c0) customer_id) as [Heq | Hne].
  - subst c. split; reflexivity.
  - subst c. contradiction.
Qed.

(** C8: every store the operations can produce from the empty database keeps
    the Customer invariant: each customer has [churned_at] set if and only if
    its status is ['churned'].  On the way, [add_customer] adds a customer
    with status ['active'] and no [churned_at], and [churn_customer] sets the
    status ['churned'] and [churned_at] together. *)
Theorem customer_invariant (st : Store) :
  reachable st ->
  Forall churned_at_iff_churned (customers st) /\
  (forall env startup_id name mrr plan d st',
     add_customer env st startup_id name mrr plan = Ok (d, st') ->
     exists row,
       customers st' = customers st ++ [row] /\
       c_status row = "active"%string /\ c_churned_at row = None) /\
  (forall env customer_id u st',
     churn_customer env st customer_id = Ok (u, st') ->
     forall c, In c (customers st') -> c_id c = customer_id ->
               c_status c = "churned"%string /\
               c_churned_at c = Some (utcnow_isoformat env)).
Proof.
  intros Hr. split; [| split].
  - induction Hr as [| env c st Hr IH].
    + constructor.
    + apply exec_preserves. exact IH.
  - intros env startup_id name mrr plan d st' H.
    apply add_customer_row in H. exact H.
  - intros env customer_id u st' H. apply (churn_customer_row _ _ _ _ _ H).
Qed.

Lemma customer_invariant_witness :
  Forall churned_at_iff_churned
    (customers
       (exec (env_at "" "2024-05-20T10:00:00" "2024-05") (ChurnCustomer "c1")
          (exec (env_at "c1" "2024-05-02T09:00:00" "2024-05")
             (AddCustomer "s1" "Soon Gone" 200 "monthly") init_db))).
Proof.
  apply customer_invariant. apply reachable_exec. apply reachable_exec.
  apply reachable_init.
Defined.

(** ** calculate_churn_rate *)

Lemma count_nonneg {row : Type} (rows : list row) : (0 <= Sql.count rows)%Z.
Proof. unfold Sql.count. lia. Qed.

Lemma int_truediv_returns (a b : Z) :
  b <> 0%Z -> exists q, Py.int_truediv a b = Ok q.
Proof.
  intros Hb. unfold Py.int_truediv.
  destruct (b =? 0)%Z eqn:Hz; [apply Z.eqb_eq in Hz; contradiction |].
  destruct (a =? 0)%Z; eexists; reflexivity.
Qed.

(** C7: [calculate_churn_rate] never divides by zero, it always returns.  With
    customers at the start of the period, [churn_rate_pct] is
    [churned / customers_at_start * 100] rounded to 2 decimals; with none, it
    is exactly 0. *)
Theorem churn_rate_never_divides_by_zero (env : Env) (st : Store)
    (startup_id : string) (p : option string) :
  exists r,
    calculate_churn_rate env st startup_id p = Ok r /\
    (0 <= customers_at_start r)%Z /\
    ((0 < customers_at_start r)%Z ->
     exists q,
       Py.int_truediv (churned r) (customers_at_start r) = Ok q /\
       churn_rate_pct r = Py.round (q * 100)%float 2) /\
    (customers_at_start r = 0%Z -> churn_rate_pct r = zero).
Proof.
  unfold calculate_churn_rate.
  set (total := Sql.count (filter _ (customers st))).
  set (ch := Sql.count (filter _ (customers st))).
  assert (Hn : (0 <= total)%Z) by apply count_nonneg.
  destruct (0 <? total)%Z eqn:Hpos.
  - apply Z.ltb_lt in Hpos.
    destruct (int_truediv_returns ch total) as (q & Hq); [lia |].
    rewrite Hq. simpl.
    eexists. split; [reflexivity |]. simpl. split; [exact Hn |]. split.
    + intros _. exists q. split; [exact Hq | reflexivity].
    + intros H0. lia.
  - apply Z.ltb_ge in Hpos. simpl.
    eexists. split; [reflexivity |]. simpl. split; [exact Hn |]. split.
    + intros H. lia.
    + intros _. reflexivity.
Qed.

Lemma churn_rate_never_divides_by_zero_witness :
  exists r,
    calculate_churn_rate (env_at "" "2024-05-20T10:00:00" "2024-05")
      one_customer_store "s1" None = Ok r /\
    customers_at_start r = 1%Z /\
    churn_rate_pct r = zero.
Proof.
  destruct (churn_rate_never_divides_by_zero
              (env_at "" "2024-05-20T10:00:00" "2024-05")
              one_customer_store "s1" None) as (r & Hr & _ & Hpos & _).
  exists r. split; [exact Hr |].
  vm_compute in Hr. injection Hr as <-.
  split; [reflexivity |].
  destruct Hpos as (q & Hq & Hrate); [reflexivity |].
  reflexivity.
Defined.

(** ** Periods and timestamps *)

Lemma ascii_compare_refl (c : ascii) : Ascii.compare c c = Eq.
Proof. unfold Ascii.compare. apply N.compare_refl. Qed.

Lemma compare_common_prefix (a x y : string) :
  String.compare (a ++ x) (a ++ y) = String.compare x y.
Proof.
  induction a as [| c a IH]; simpl.
  - reflexivity.
  - rewrite ascii_compare_refl. exact IH.
Qed.

(** A timestamp of a day of the month [period] does not precede the first day
    of [period]. *)
Lemma timestamp_in_not_before (period : string) (d : nat) (time : string) :
  (1 <= d <= 31)%nat ->
  Sql.text_lt (timestamp_in period d time) (period ++ "-01") = false.
Proof.
  intros Hd. unfold Sql.text_lt, String.ltb, timestamp_in.
  rewrite compare_common_prefix.
  do 32 (destruct d as [| d]; [try lia; reflexivity |]).
  lia.
Qed.

Lemma like_cons (c : ascii) (q t : string) :
  Sql.like (String c q) t =
  if Ascii.eqb c "%" then
    Sql.like q t || match t with
                    | EmptyString => false
                    | String _ t' => Sql.like (String c q) t'
                    end
  else if Ascii.eqb c "_" then
    match t with
    | EmptyString => false
    | String _ t' => Sql.like q t'
    end
  else
    match t with
    | EmptyString => false
    | String d t' => Ascii.eqb (Sql.upper c) (Sql.upper d) && Sql.like q t'
    end.
Proof.
  simpl. destruct (Ascii.eqb c "%").
  - destruct t; reflexivity.
  - destruct (Ascii.eqb c "_"); reflexivity.
Qed.

Lemma like_percent (t : string) : Sql.like "%" t = true.
Proof.
  induction t as [| c t IH]; [reflexivity |].
  rewrite like_cons, Ascii.eqb_refl, IH. apply orb_true_r.
Qed.

(** A text that starts with [p] matches the pattern [p%]. *)
Lemma like_prefix (p t : string) : Sql.like (p ++ "%") (p ++ t) = true.
Proof.
  induction p as [| c p IH].
  - apply like_percent.
  - change ((String c p ++ "%")%string) with (String c (p ++ "%")).
    change ((String c p ++ t)%string) with (String c (p ++ t)).
    rewrite like_cons. destruct (Ascii.eqb c "%") eqn:Epc.
    + rewrite (like_cons c (p ++ "%") (p ++ t)), Epc, IH.
      apply orb_true_r.
    + destruct (Ascii.eqb c "_"); [exact IH |].
      rewrite Ascii.eqb_refl, IH. reflexivity.
Qed.

(** ** Customers acquired and lost within the period *)

Lemma count_app_cons {row : Type} (f : row -> bool) (l1 l2 : list row) (x : row) :
  Sql.count (filter f (l1 ++ x :: l2)) =
  (Sql.count (filter f (l1 ++ l2)) + (if f x then 1 else 0))%Z.
Proof.
  unfold Sql.count. rewrite !filter_app. simpl.
  destruct (f x); rewrite !length_app; simpl; lia.
Qed.

(** C3, as the code has it: a customer that both started and churned within
    the period is left out of [customers_at_start], which is the number of
    customers of the startup whose [started_at] precedes the first day of the
    period, but it is counted in [churned].  So with that customer present
    [customers_at_start] is the same, [churned] is one higher, and the rate is
    [(churned + 1) / customers_at_start * 100] rounded to 2 decimals over a
    cohort that is not empty, and 0 over an empty one. *)
Theorem same_period_customer_counts_as_churned (env : Env) (st : Store)
    (l1 l2 : list customer_row) (c : customer_row) (startup_id : string)
    (p : option string) :
  c_startup_id c = startup_id ->
  started_in (Py.or_str p (utcnow_year_month env)) c ->
  churned_in (Py.or_str p (utcnow_year_month env)) c ->
  exists r r',
    calculate_churn_rate env (set_customers st (l1 ++ c :: l2)) startup_id p = Ok r /\
    calculate_churn_rate env (set_customers st (l1 ++ l2)) startup_id p = Ok r' /\
    customers_at_start r' =
      Sql.count (pre_period_cohort (l1 ++ l2) startup_id
                   (Py.or_str p (utcnow_year_month env))) /\
    customers_at_start r =
      Sql.count (pre_period_cohort (l1 ++ c :: l2) startup_id
                   (Py.or_str p (utcnow_year_month env))) /\
    ~ In c (pre_period_cohort (l1 ++ c :: l2) startup_id
              (Py.or_str p (utcnow_year_month env))) /\
    customers_at_start r = customers_at_start r' /\
    churned r' =
      Sql.count (churned_within (l1 ++ l2) startup_id
                   (Py.or_str p (utcnow_year_month env))) /\
    churned r = (churned r' + 1)%Z /\
    ((0 < customers_at_start r')%Z ->
     exists q,
       Py.int_truediv (churned r' + 1) (customers_at_start r') = Ok q /\
       churn_rate_pct r = Py.round (q * 100)%float 2) /\
    (customers_at_start r' = 0%Z ->
     churn_rate_pct r = zero /\ churn_rate_pct r' = zero).
Proof.
  intros Hid (d & time & Hd & Hstart) (Hstatus & rest & Hchurn).
  assert (Hout : ~ In c (pre_period_cohort (l1 ++ c :: l2) startup_id
                           (Py.or_str p (utcnow_year_month env)))).
  { unfold pre_period_cohort. intros Hin. apply filter_In in Hin.
    destruct Hin as (_ & Hf). rewrite Hstart in Hf.
    rewrite (timestamp_in_not_before _ d time Hd) in Hf.
    rewrite andb_false_r in Hf. discriminate. }
  revert Hout.
  unfold calculate_churn_rate, pre_period_cohort, churned_within. simpl customers.
  set (per := Py.or_str p (utcnow_year_month env)) in *.
  intros Hout.
  rewrite !count_app_cons.
  rewrite Hid, Hstart, Hstatus, Hchurn, String.eqb_refl.
  rewrite (timestamp_in_not_before per d time Hd), like_prefix.
  simpl andb. cbv iota. rewrite Z.add_0_r.
  set (total := Sql.count (filter _ (l1 ++ l2))).
  set (ch := Sql.count (filter _ (l1 ++ l2))).
  destruct (0 <? total)%Z eqn:Hpos.
  - apply Z.ltb_lt in Hpos.
    destruct (int_truediv_returns (ch + 1) total) as (q & Hq); [lia |].
    destruct (int_truediv_returns ch total) as (q' & Hq'); [lia |].
    rewrite Hq, Hq'. simpl.
    do 2 eexists. split; [reflexivity |]. split; [reflexivity |]. simpl.
    split; [reflexivity |]. split; [reflexivity |]. split; [exact Hout |].
    split; [reflexivity |]. split; [reflexivity |]. split; [reflexivity |].
    split.
    + intros _. exists q. split; [exact Hq | reflexivity].
    + intros H0. lia.
  - apply Z.ltb_ge in Hpos. simpl.
    do 2 eexists. split; [reflexivity |]. split; [reflexivity |]. simpl.
    split; [reflexivity |]. split; [reflexivity |]. split; [exact Hout |].
    split; [reflexivity |]. split; [reflexivity |]. split; [reflexivity |].
    split.
    + intros H. lia.
    + intros _. split; reflexivity.
Qed.

Lemma same_period_customer_counts_as_churned_witness :
  exists r r',
    calculate_churn_rate (env_at "" "2024-05-20T11:00:00" "2024-05")
      (set_customers init_db ([pre_period_customer] ++ same_period_customer :: []))
      "s1" None = Ok r /\
    calculate_churn_rate (env_at "" "2024-05-20T11:00:00" "2024-05")
      (set_customers init_db ([pre_period_customer] ++ [])) "s1" None = Ok r' /\
    customers_at_start r = customers_at_start r' /\
    churned r = (churned r' + 1)%Z.
Proof.
  destruct (same_period_customer_counts_as_churned
              (env_at "" "2024-05-20T11:00:00" "2024-05") init_db
              [pre_period_customer] [] same_period_customer "s1" None)
    as (r & r' & H1 & H2 & _ & _ & _ & H3 & _ & H4 & _).
  - reflexivity.
  - exists 2%nat, "09:00:00"%string. split; [lia | reflexivity].
  - split; [reflexivity |]. exists "-20T10:00:00"%string. reflexivity.
  - exists r, r'. repeat split; assumption.
Defined.

(** C3 does not hold as written: with one customer from before the period
    still active, a customer acquired and lost within May 2024 raises the
    churn rate of May 2024 from 0 to 100 percent. *)
Lemma same_period_customer_inflates_churn :
  calculate_churn_rate (env_at "" "2024-05-20T11:00:00" "2024-05")
    (set_customers init_db [pre_period_customer; same_period_customer])
    "s1" (Some "2024-05"%string)
  = Ok {| period := "2024-05"; customers_at_start := 1; churned := 1;
          churn_rate_pct := 100 |} /\
  calculate_churn_rate (env_at "" "2024-05-20T11:00:00" "2024-05")
    (set_customers init_db [pre_period_customer])
    "s1" (Some "2024-05"%string)
  = Ok {| period := "2024-05"; customers_at_start := 1; churned := 0;
          churn_rate_pct := 0 |} /\
  (100 =? 0)%float = false.
Proof. split; [| split]; vm_compute; reflexivity. Qed.

(** ** calculate_mrr and calculate_arr *)

Lemma sum_mrr_from_fold (cs : list customer_row) (acc : float) :
  fold_left PrimFloat.add (map c_mrr cs) acc = sum_mrr_from acc cs.
Proof.
  revert acc. induction cs as [| c cs IH]; intros acc; simpl.
  - reflexivity.
  - apply IH.
Qed.

Lemma zero_not_nan (x : float) : (x =? 0)%float = true -> is_nan x = false.
Proof.
  unfold is_nan. rewrite !eqb_spec.
  change (Prim2SF 0) with (S754_zero false).
  destruct (Prim2SF x) as [s | s | | s m e]; try destruct s; cbv; congruence.
Qed.

(** The total the query of [calculate_mrr] hands back, in terms of the sum
    over the active customers. *)
Lemma active_total (st : Store) (startup_id : string) :
  Sql.sum (map c_mrr (active_customers st startup_id)) =
  match active_customers st startup_id with
  | [] => None
  | _ => if is_nan (sum_active_mrr st startup_id) then None
         else Some (sum_active_mrr st startup_id)
  end.
Proof.
  unfold sum_active_mrr, Sql.sum.
  destruct (active_customers st startup_id) as [| c cs]; [reflexivity |].
  rewrite <- sum_mrr_from_fold. reflexivity.
Qed.

Lemma calculate_mrr_total (st : Store) (startup_id : string) :
  calculate_mrr st startup_id =
  Ok (Py.round (Py.or_zero (Sql.sum (map c_mrr (active_customers st startup_id)))) 2).
Proof. reflexivity. Qed.

(** C6: [calculate_mrr] returns the sum of [mrr] over the active customers of
    the startup, rounded to 2 decimals (a sum that is zero is returned as
    0.0); a customer whose status is not active adds nothing to it; and with
    no active customer both [calculate_mrr] and [calculate_arr] return 0. *)
Theorem calculate_mrr_sums_active_customers (st : Store) (startup_id : string) :
  (is_nan (sum_active_mrr st startup_id) = false ->
   (sum_active_mrr st startup_id =? 0)%float = false ->
   calculate_mrr st startup_id = Ok (Py.round (sum_active_mrr st startup_id) 2)) /\
  ((sum_active_mrr st startup_id =? 0)%float = true ->
   calculate_mrr st startup_id = Ok zero) /\
  (forall l1 l2 c,
     customers st = l1 ++ c :: l2 ->
     c_status c <> "active"%string ->
     calculate_mrr st startup_id =
     calculate_mrr (set_customers st (l1 ++ l2)) startup_id) /\
  (active_customers st startup_id = [] ->
   calculate_mrr st startup_id = Ok zero /\ calculate_arr st startup_id = Ok zero).
Proof.
  split; [| split; [| split]].
  - intros Hnan Hnz. rewrite calculate_mrr_total, active_total.
    destruct (active_customers st startup_id) as [| c cs] eqn:E.
    + unfold sum_active_mrr in Hnz. rewrite E in Hnz. discriminate.
    + rewrite Hnan. simpl. rewrite Hnz. reflexivity.
  - intros Hz. rewrite calculate_mrr_total, active_total.
    destruct (active_customers st startup_id) as [| c cs]; [reflexivity |].
    rewrite (zero_not_nan _ Hz). simpl. rewrite Hz. reflexivity.
  - intros l1 l2 c Hst Hc. rewrite !calculate_mrr_total.
    unfold active_customers. simpl customers. rewrite Hst, !filter_app. simpl.
    destruct (String.eqb_spec (c_status c) "active") as [Heq | Hne];
      [contradiction |].
    rewrite andb_false_r. reflexivity.
  - intros Hnone. unfold calculate_arr.
    rewrite calculate_mrr_total, Hnone. split; reflexivity.
Qed.

Lemma calculate_mrr_sums_active_customers_witness :
  calculate_mrr three_customer_store "s1" = Ok 800%float.
Proof.
  destruct (calculate_mrr_sums_active_customers three_customer_store "s1")
    as (H & _).
  rewrite H; reflexivity.
Defined.

(** C5, as the code has it: [calculate_arr] takes the engine's own MRR figure
    and returns that figure times 12, rounded to 2 decimals; there is no other
    computation path. *)
Theorem calculate_arr_is_rounded_12_mrr (st : Store) (startup_id : string) :
  exists m,
    calculate_mrr st startup_id = Ok m /\
    calculate_arr st startup_id = Ok (Py.round (m * 12)%float 2).
Proof.
  unfold calculate_arr. destruct (calculate_mrr st startup_id) as [m | e] eqn:E.
  - exists m. split; reflexivity.
  - discriminate.
Qed.

(** C5 does not hold as written: with one active customer at 0.1 a month,
    MRR is 0.1 and ARR is 1.2, while 0.1 * 12 is 1.2000000000000002 in
    binary64; ARR and MRR * 12 are not equal. *)
Lemma calculate_arr_differs_from_12_mrr :
  calculate_mrr dime_store "s1" = Ok 0.1%float /\
  calculate_arr dime_store "s1" = Ok 1.2%float /\
  (0.1 * 12)%float = 1.2000000000000002%float /\
  (1.2 =? 0.1 * 12)%float = false.
Proof. repeat split; vm_compute; reflexivity. Qed.

(** ** calculate_runway *)

(** [calculate_runway] always returns, with these fields. *)
Lemma calculate_runway_value (st : Store) (startup_id : string) (burn : float) :
  exists m,
    calculate_mrr st startup_id = Ok m /\
    calculate_runway st startup_id burn =
    Ok {| total_raised := Py.round (lifetime_raised st startup_id) 2;
          mrr := m;
          monthly_burn := burn;
          net_burn := Py.round (Py.max0 (burn - m)%float) 2;
          runway_months :=
            if (0 <? burn - m)%float
            then if (lifetime_raised st startup_id / (burn - m) =? infinity)%float
                 then Infinite
                 else Months (Py.round (lifetime_raised st startup_id / (burn - m))%float 1)
            else Infinite |}.
Proof.
  unfold calculate_runway. fold (lifetime_raised st startup_id).
  destruct (calculate_mrr st startup_id) as [m | e] eqn:E; [| discriminate].
  exists m. split; [reflexivity |]. simpl bind.
  unfold Py.max0. destruct (0 <? burn - m)%float eqn:Hpos.
  - rewrite Hpos. unfold Py.float_truediv.
    rewrite (positive_not_zero _ Hpos). simpl bind.
    destruct (lifetime_raised st startup_id / (burn - m) =? infinity)%float;
      reflexivity.
  - reflexivity.
Qed.

(** C4, as the code has it: [calculate_runway] reports the engine's MRR, the
    lifetime sum of the funding amounts rounded to 2 decimals, and
    [max(0, monthly_burn - mrr)] rounded to 2 decimals as [net_burn].  When
    [monthly_burn - mrr] is positive, [runway_months] is the unrounded sum
    divided by the unrounded [monthly_burn - mrr], rounded to one decimal (the
    sentinel if that quotient is itself infinite); otherwise [net_burn] is 0
    and [runway_months] is the sentinel, not a number. *)
Theorem calculate_runway_fields (st : Store) (startup_id : string) (burn : float) :
  exists m r,
    calculate_mrr st startup_id = Ok m /\
    calculate_runway st startup_id burn = Ok r /\
    mrr r = m /\
    monthly_burn r = burn /\
    total_raised r = Py.round (lifetime_raised st startup_id) 2 /\
    net_burn r = Py.round (Py.max0 (burn - m)%float) 2 /\
    ((0 <? burn - m)%float = true ->
     runway_months r =
     if (lifetime_raised st startup_id / (burn - m) =? infinity)%float
     then Infinite
     else Months (Py.round (lifetime_raised st startup_id / (burn - m))%float 1)) /\
    ((0 <? burn - m)%float = false ->
     net_burn r = zero /\ runway_months r = Infinite).
Proof.
  destruct (calculate_runway_value st startup_id burn) as (m & Hm & Hr).
  exists m. eexists. split; [exact Hm |]. split; [exact Hr |]. simpl.
  repeat (split; [reflexivity |]). split.
  - intros Hpos. rewrite Hpos. reflexivity.
  - intros Hpos. unfold Py.max0. rewrite Hpos. split; reflexivity.
Qed.

Lemma calculate_runway_fields_witness :
  exists r,
    calculate_runway seed_store "s1" 50000 = Ok r /\
    net_burn r = 50000%float /\
    runway_months r = Months 10.
Proof.
  destruct (calculate_runway_fields seed_store "s1" 50000)
    as (m & r & Hm & Hr & _ & _ & _ & Hnet & Hpos & _).
  vm_compute in Hm. injection Hm as <-.
  exists r. split; [exact Hr |]. split.
  - rewrite Hnet. reflexivity.
  - rewrite Hpos; reflexivity.
Defined.

(** C4 does not hold as written: with 1.0 raised, no revenue and a monthly
    burn of 0.001, [max(0, monthly_burn - mrr)] is 0.001 but the [net_burn]
    returned is 0.0, and [runway_months] is the number 1000.0 although the
    [net_burn] returned is 0. *)
Lemma calculate_runway_rounds_net_burn :
  calculate_runway unit_raise_store "s1" 0.001
  = Ok {| total_raised := 1; mrr := 0; monthly_burn := 0.001; net_burn := 0;
          runway_months := Months 1000 |} /\
  Py.max0 (0.001 - 0)%float = 0.001%float /\
  (0 =? 0.001)%float = false.
Proof. repeat split; vm_compute; reflexivity. Qed.

(** ** kpi_dashboard *)

Lemma calculate_churn_rate_returns (env : Env) (st : Store) (startup_id : string)
    (p : option string) :
  exists r, calculate_churn_rate env st startup_id p = Ok r.
Proof.
  unfold calculate_churn_rate.
  set (total := Sql.count (filter _ (customers st))).
  set (ch := Sql.count (filter _ (customers st))).
  destruct (0 <? total)%Z eqn:Hpos.
  - apply Z.ltb_lt in Hpos.
    destruct (int_truediv_returns ch total) as (q & Hq); [lia |].
    rewrite Hq. eexists. reflexivity.
  - eexists. reflexivity.
Qed.

(** C9: [kpi_dashboard] always returns a snapshot holding the mrr, arr, churn
    and headcount results; its runway entry is the result of
    [calculate_runway] when [monthly_burn > 0] and the empty dict otherwise,
    so it is filled if and only if [monthly_burn > 0]; with the default burn
    of 0 it is empty. *)
Theorem kpi_dashboard_runway_iff_burn (env : Env) (st : Store)
    (startup_id : string) (burn : float) :
  (exists d,
     kpi_dashboard env st startup_id burn = Ok d /\
     calculate_mrr st startup_id = Ok (d_mrr d) /\
     calculate_arr st startup_id = Ok (d_arr d) /\
     calculate_churn_rate env st startup_id None = Ok (d_churn d) /\
     headcount st startup_id = Ok (d_headcount d) /\
     (d_runway d <> None <-> (0 <? burn)%float = true) /\
     ((0 <? burn)%float = true ->
      exists r, calculate_runway st startup_id burn = Ok r /\ d_runway d = Some r)) /\
  (exists d,
     kpi_dashboard_default env st startup_id = Ok d /\ d_runway d = None).
Proof.
  assert (Hgen : forall b,
    exists d,
     kpi_dashboard env st startup_id b = Ok d /\
     calculate_mrr st startup_id = Ok (d_mrr d) /\
     calculate_arr st startup_id = Ok (d_arr d) /\
     calculate_churn_rate env st startup_id None = Ok (d_churn d) /\
     headcount st startup_id = Ok (d_headcount d) /\
     d_runway d =
       if (0 <? b)%float
       then match calculate_runway st startup_id b with
            | Ok r => Some r
            | Raise _ => None
            end
       else None).
  { intros b. unfold kpi_dashboard.
    destruct (calculate_churn_rate_returns env st startup_id None) as (c & Hc).
    destruct (calculate_runway_value st startup_id b) as (m & Hm & Hr).
    rewrite Hc. simpl bind.
    destruct (0 <? b)%float.
    - rewrite Hr. simpl bind. eexists. split; [reflexivity |]. simpl.
      repeat (split; [reflexivity |]). reflexivity.
    - simpl bind. eexists. split; [reflexivity |]. simpl.
      repeat (split; [reflexivity |]). reflexivity. }
  split.
  - destruct (Hgen burn) as (d & Hd & Hmrr & Harr & Hch & Hhc & Hrun).
    exists d. repeat (split; [assumption |]).
    destruct (calculate_runway_value st startup_id burn) as (m & Hm & Hr).
    rewrite Hr in Hrun. destruct (0 <? burn)%float.
    + split.
      * rewrite Hrun. split; [reflexivity | discriminate].
      * intros _. eexists. split; [exact Hr | exact Hrun].
    + split.
      * rewrite Hrun. split; [intros H; contradiction | discriminate].
      * discriminate.
  - destruct (Hgen zero) as (d & Hd & _ & _ & _ & _ & Hrun).
    exists d. split; [exact Hd | exact Hrun].
Qed.

Lemma kpi_dashboard_runway_iff_burn_witness :
  exists d r,
    kpi_dashboard (env_at "" "2024-05-20T11:00:00" "2024-05") seed_store "s1" 5000
    = Ok d /\
    calculate_runway seed_store "s1" 5000 = Ok r /\
    d_runway d = Some r.
Proof.
  destruct (kpi_dashboard_runway_iff_burn
              (env_at "" "2024-05-20T11:00:00" "2024-05") seed_store "s1" 5000)
    as ((d & Hd & _ & _ & _ & _ & _ & Hrun) & _).
  destruct Hrun as (r & Hr & Hdr); [reflexivity |].
  exists d, r. repeat split; assumption.
Defined.

(** ** Unknown startups and unchecked numbers *)

Lemma filter_none {A : Type} (f : A -> bool) (l : list A) :
  (forall x, In x l -> f x = false) -> filter f l = [].
Proof.
  induction l as [| x l IH]; intros H; simpl.
  - reflexivity.
  - rewrite (H x (or_introl eq_refl)). apply IH.
    intros y Hy. apply H. right. exact Hy.
Qed.

Lemma eqb_other (a b : string) : a <> b -> String.eqb a b = false.
Proof. intros H. apply String.eqb_neq. exact H. Qed.

(** The four inserts, for a value that is a number and an identifier that is
    new: the row goes in at the end of its table, under the startup identifier
    given, whatever that identifier is. *)
Lemma add_customer_inserts (env : Env) (st : Store) (startup_id name plan : string)
    (v : float) :
  is_nan v = false ->
  fresh c_id (uuid4 env) (customers st) ->
  add_customer env st startup_id name v plan =
  Ok ({| cd_id := uuid4 env; cd_name := name; cd_mrr := v; cd_plan := plan |},
      set_customers st
        (customers st ++
         [{| c_id := uuid4 env; c_startup_id := startup_id; c_name := name;
             c_plan := plan; c_mrr := if (v =? 0)%float then zero else v;
             c_status := "active"; c_started_at := utcnow_isoformat env;
             c_churned_at := None; c_notes := Some EmptyString |}])).
Proof.
  intros Hv Hf. unfold add_customer. rewrite (real_of_number v Hv). simpl bind.
  rewrite insert_fresh; [reflexivity | exact Hf].
Qed.

Lemma add_employee_inserts (env : Env) (st : Store)
    (startup_id name role department : string) (v : float) :
  is_nan v = false ->
  fresh e_id (uuid4 env) (employees st) ->
  add_employee env st startup_id name role department v =
  Ok ({| ed_id := uuid4 env; ed_name := name; ed_role := role;
         ed_department := department; ed_salary := v |},
      set_employees st
        (employees st ++
         [{| e_id := uuid4 env; e_startup_id := startup_id; e_name := name;
             e_role := role; e_department := department;
             e_salary := if (v =? 0)%float then zero else v;
             e_hired_at := utcnow_isoformat env; e_left_at := None |}])).
Proof.
  intros Hv Hf. unfold add_employee. rewrite (real_of_number v Hv). simpl bind.
  rewrite insert_fresh; [reflexivity | exact Hf].
Qed.

Lemma add_funding_inserts (env : Env) (st : Store) (startup_id round_name : string)
    (v : float) :
  is_nan v = false ->
  fresh f_id (uuid4 env) (funding_rounds st) ->
  add_funding env st startup_id round_name v None None =
  Ok ({| fd_id := uuid4 env; fd_round := round_name; fd_amount := v;
         fd_valuation := None |},
      set_funding_rounds st
        (funding_rounds st ++
         [{| f_id := uuid4 env; f_startup_id := startup_id;
             f_round_name := round_name;
             f_amount := if (v =? 0)%float then zero else v;
             f_valuation := None; f_closed_at := utcnow_isoformat env;
             f_investors := []; f_notes := Some EmptyString |}])).
Proof.
  intros Hv Hf. unfold add_funding. rewrite (real_of_number v Hv). simpl bind.
  rewrite insert_fresh; [reflexivity | exact Hf].
Qed.

Lemma record_metric_inserts (env : Env) (st : Store) (startup_id metric_type : string)
    (v : float) (p : option string) (notes : string) :
  is_nan v = false ->
  fresh m_id (uuid4 env) (metrics st) ->
  record_metric env st startup_id metric_type v p notes =
  Ok ({| m_id := uuid4 env; m_startup_id := startup_id;
         m_metric_type := metric_type; m_value := v;
         m_period := Py.or_str p (utcnow_year_month env); m_notes := Some notes;
         m_recorded_at := utcnow_isoformat env |},
      set_metrics st
        (metrics st ++
         [{| m_id := uuid4 env; m_startup_id := startup_id;
             m_metric_type := metric_type;
             m_value := if (v =? 0)%float then zero else v;
             m_period := Py.or_str p (utcnow_year_month env);
             m_notes := Some notes;
             m_recorded_at := utcnow_isoformat env |}])).
Proof.
  intros Hv Hf. unfold record_metric. rewrite (real_of_number v Hv). simpl bind.
  rewrite insert_fresh; [reflexivity | exact Hf].
Qed.

(** C1, as the code has it: no query checks that the startup exists, and none
    fails with NotFoundError.  [calculate_mrr], [calculate_arr],
    [calculate_churn_rate], [calculate_runway] and [headcount] return for
    every identifier; for an identifier that names no startup and that no
    stored row carries, they return the zero-valued result. *)
Theorem unknown_startup_is_not_an_error (env : Env) (st : Store)
    (startup_id : string) (burn : float) (p : option string) :
  (returns (calculate_mrr st startup_id) /\
   returns (calculate_arr st startup_id) /\
   returns (calculate_churn_rate env st startup_id p) /\
   returns (calculate_runway st startup_id burn) /\
   returns (headcount st startup_id)) /\
  (~ raises (calculate_mrr st startup_id) NotFoundError /\
   ~ raises (calculate_arr st startup_id) NotFoundError /\
   ~ raises (calculate_churn_rate env st startup_id p) NotFoundError /\
   ~ raises (calculate_runway st startup_id burn) NotFoundError /\
   ~ raises (headcount st startup_id) NotFoundError) /\
  (unknown_startup st startup_id ->
   calculate_mrr st startup_id = Ok zero /\
   calculate_arr st startup_id = Ok zero /\
   calculate_churn_rate env st startup_id p =
     Ok {| period := Py.or_str p (utcnow_year_month env);
           customers_at_start := 0; churned := 0; churn_rate_pct := zero |} /\
   (exists r, calculate_runway st startup_id burn = Ok r /\
              total_raised r = zero /\ mrr r = zero) /\
   headcount st startup_id =
     Ok {| total_headcount := 0; total_salary_cost := zero; by_department := [] |}).
Proof.
  assert (Hret : returns (calculate_mrr st startup_id) /\
                 returns (calculate_arr st startup_id) /\
                 returns (calculate_churn_rate env st startup_id p) /\
                 returns (calculate_runway st startup_id burn) /\
                 returns (headcount st startup_id)).
  { split; [eexists; reflexivity |]. split; [eexists; reflexivity |].
    split; [apply calculate_churn_rate_returns |]. split.
    - destruct (calculate_runway_value st startup_id burn) as (m & _ & Hr).
      eexists. exact Hr.
    - eexists. reflexivity. }
  split; [exact Hret |]. split.
  - destruct Hret as ((a1 & H1) & (a2 & H2) & (a3 & H3) & (a4 & H4) & (a5 & H5)).
    unfold raises. rewrite H1, H2, H3, H4, H5.
    repeat split; discriminate.
  - intros (Hs & Hc & He & Hf).
    assert (Hact : forall f : customer_row -> bool,
               filter (fun c => String.eqb (c_startup_id c) startup_id && f c)
                 (customers st) = []).
    { intros f. apply filter_none. intros c Hin.
      rewrite (eqb_other _ _ (Hc c Hin)). reflexivity. }
    assert (Hmrr : calculate_mrr st startup_id = Ok zero).
    { unfold calculate_mrr. rewrite Hact. reflexivity. }
    split; [exact Hmrr |].
    split; [unfold calculate_arr; rewrite Hmrr; reflexivity |].
    split.
    { unfold calculate_churn_rate.
      rewrite Hact.
      rewrite (filter_none _ (customers st)); [reflexivity |].
      intros c Hin. rewrite (eqb_other _ _ (Hc c Hin)). reflexivity. }
    split.
    { destruct (calculate_runway_value st startup_id burn) as (m & Hm & Hr).
      eexists. split; [exact Hr |]. simpl.
      rewrite Hmrr in Hm. injection Hm as <-.
      unfold lifetime_raised. rewrite (filter_none _ (funding_rounds st)).
      - split; reflexivity.
      - intros f Hin. apply eqb_other. apply Hf. exact Hin. }
    unfold headcount. rewrite (filter_none _ (employees st)); [reflexivity |].
    intros e Hin. rewrite (eqb_other _ _ (He e Hin)). reflexivity.
Qed.

Lemma unknown_startup_is_not_an_error_witness :
  calculate_mrr populated_store "ghost" = Ok zero /\
  calculate_arr populated_store "ghost" = Ok zero /\
  headcount populated_store "ghost" =
    Ok {| total_headcount := 0; total_salary_cost := zero; by_department := [] |}.
Proof.
  destruct (unknown_startup_is_not_an_error
              (env_at "" "2024-05-20T11:00:00" "2024-05") populated_store
              "ghost" 5000 None)
    as (_ & _ & H).
  destruct H as (Hmrr & Harr & _ & _ & Hhc).
  - split; [| split; [| split]].
    + intros x [<- | []]. discriminate.
    + intros x [<- | [<- | [<- | []]]]; discriminate.
    + intros x [<- | []]. discriminate.
    + intros x [<- | []]. discriminate.
  - repeat split; assumption.
Defined.

(** C1 does not hold as written: on a store that holds the startup [s1] with
    customers, an employee and a funding round, and no startup [ghost],
    [calculate_mrr("ghost")] returns 0.0 and [headcount("ghost")] returns the
    empty result; neither raises NotFoundError. *)
Lemma unknown_startup_returns_zero :
  find (fun s => String.eqb (s_id s) "ghost") (startups populated_store) = None /\
  calculate_mrr populated_store "ghost" = Ok zero /\
  ~ raises (calculate_mrr populated_store "ghost") NotFoundError /\
  headcount populated_store "ghost" =
    Ok {| total_headcount := 0; total_salary_cost := zero; by_department := [] |} /\
  ~ raises (headcount populated_store "ghost") NotFoundError.
Proof.
  split; [reflexivity |].
  split; [reflexivity |].
  split; [intros H; discriminate H |].
  split; [reflexivity |].
  intros H; discriminate H.
Qed.

Lemma add_customer_nan (env : Env) (st : Store) (startup_id name plan : string)
    (v : float) :
  is_nan v = true ->
  add_customer env st startup_id name v plan = Raise IntegrityError.
Proof. intros Hv. unfold add_customer, Sql.real. rewrite Hv. reflexivity. Qed.

Lemma add_employee_nan (env : Env) (st : Store)
    (startup_id name role department : string) (v : float) :
  is_nan v = true ->
  add_employee env st startup_id name role department v = Raise IntegrityError.
Proof. intros Hv. unfold add_employee, Sql.real. rewrite Hv. reflexivity. Qed.

Lemma add_funding_nan (env : Env) (st : Store) (startup_id round_name : string)
    (v : float) (valuation : option float) (investors : option (list string)) :
  is_nan v = true ->
  add_funding env st startup_id round_name v valuation investors = Raise IntegrityError.
Proof. intros Hv. unfold add_funding, Sql.real. rewrite Hv. reflexivity. Qed.

Lemma record_metric_nan (env : Env) (st : Store) (startup_id metric_type : string)
    (v : float) (p : option string) (notes : string) :
  is_nan v = true ->
  record_metric env st startup_id metric_type v p notes = Raise IntegrityError.
Proof. intros Hv. unfold record_metric, Sql.real. rewrite Hv. reflexivity. Qed.

(** C2, as the code has it: no operation validates its numeric input, and none
    fails with InvalidArgumentError.  A value that is a number, negative and
    infinite ones included, is written by [add_customer], [add_employee],
    [add_funding] and [record_metric] like any other (given a new identifier),
    and [calculate_runway] returns a result for every [monthly_burn].  Only
    NaN is refused, by the NOT NULL constraint of the store when the row is
    written (IntegrityError). *)
Theorem numeric_inputs_are_not_validated (env : Env) (st : Store)
    (startup_id name plan role department round_name metric_type notes : string)
    (p : option string) (v : float) :
  (is_nan v = false ->
   (fresh c_id (uuid4 env) (customers st) ->
    exists d st',
      add_customer env st startup_id name v plan = Ok (d, st') /\
      cd_mrr d = v /\
      exists row, customers st' = customers st ++ [row] /\
                  c_mrr row = if (v =? 0)%float then zero else v) /\
   (fresh e_id (uuid4 env) (employees st) ->
    exists d st',
      add_employee env st startup_id name role department v = Ok (d, st') /\
      ed_salary d = v /\
      exists row, employees st' = employees st ++ [row] /\
                  e_salary row = if (v =? 0)%float then zero else v) /\
   (fresh f_id (uuid4 env) (funding_rounds st) ->
    exists d st',
      add_funding env st startup_id round_name v None None = Ok (d, st') /\
      fd_amount d = v /\
      exists row, funding_rounds st' = funding_rounds st ++ [row] /\
                  f_amount row = if (v =? 0)%float then zero else v) /\
   (fresh m_id (uuid4 env) (metrics st) ->
    exists m st',
      record_metric env st startup_id metric_type v p notes = Ok (m, st') /\
      m_value m = v /\
      exists row, metrics st' = metrics st ++ [row] /\
                  m_value row = if (v =? 0)%float then zero else v)) /\
  (is_nan v = true ->
   add_customer env st startup_id name v plan = Raise IntegrityError /\
   add_employee env st startup_id name role department v = Raise IntegrityError /\
   add_funding env st startup_id round_name v None None = Raise IntegrityError /\
   record_metric env st startup_id metric_type v p notes = Raise IntegrityError) /\
  (exists r, calculate_runway st startup_id v = Ok r /\ monthly_burn r = v) /\
  (~ raises (add_customer env st startup_id name v plan) InvalidArgumentError /\
   ~ raises (add_employee env st startup_id name role department v) InvalidArgumentError /\
   ~ raises (add_funding env st startup_id round_name v None None) InvalidArgumentError /\
   ~ raises (record_metric env st startup_id metric_type v p notes) InvalidArgumentError /\
   ~ raises (calculate_runway st startup_id v) InvalidArgumentError).
Proof.
  split; [| split; [| split]].
  - intros Hv. split; [| split; [| split]]; intros Hf; do 2 eexists.
    + split; [apply add_customer_inserts; assumption |].
      split; [reflexivity |]. eexists. split; reflexivity.
    + split; [apply add_employee_inserts; assumption |].
      split; [reflexivity |]. eexists. split; reflexivity.
    + split; [apply add_funding_inserts; assumption |].
      split; [reflexivity |]. eexists. split; reflexivity.
    + split; [apply record_metric_inserts; assumption |].
      split; [reflexivity |]. eexists. split; reflexivity.
  - intros Hv. split; [| split; [| split]].
    + apply add_customer_nan. exact Hv.
    + apply add_employee_nan. exact Hv.
    + apply add_funding_nan. exact Hv.
    + apply record_metric_nan. exact Hv.
  - destruct (calculate_runway_value st startup_id v) as (m & _ & Hr).
    eexists. split; [exact Hr | reflexivity].
  - unfold raises. split; [| split; [| split; [| split]]].
    + unfold add_customer. destruct (Sql.real v); simpl; [| discriminate].
      unfold Sql.insert. destruct (existsb _ _); simpl; discriminate.
    + unfold add_employee. destruct (Sql.real v); simpl; [| discriminate].
      unfold Sql.insert. destruct (existsb _ _); simpl; discriminate.
    + unfold add_funding. destruct (Sql.real v); simpl; [| discriminate].
      unfold Sql.insert. destruct (existsb _ _); simpl; discriminate.
    + unfold record_metric. destruct (Sql.real v); simpl; [| discriminate].
      unfold Sql.insert. destruct (existsb _ _); simpl; discriminate.
    + destruct (calculate_runway_value st startup_id v) as (m & _ & Hr).
      rewrite Hr. discriminate.
Qed.

Lemma numeric_inputs_are_not_validated_witness :
  exists d st',
    add_customer (env_at "c9" "2024-05-20T11:00:00" "2024-05") testcorp_store
      "s1" "Debtor" (-5) "monthly" = Ok (d, st') /\
    cd_mrr d = (-5)%float.
Proof.
  destruct (numeric_inputs_are_not_validated
              (env_at "c9" "2024-05-20T11:00:00" "2024-05") testcorp_store
              "s1" "Debtor" "monthly" "Engineer" "eng" "Seed" "nps" "" None (-5))
    as (H & _).
  destruct H as (Hc & _); [reflexivity |].
  destruct Hc as (d & st' & Hadd & Hd & _); [reflexivity |].
  exists d, st'. split; assumption.
Defined.

(** C2 does not hold as written: [add_customer] with the negative [mrr] of
    -5 returns normally and has written the customer, and [calculate_runway]
    with the negative burn of -5 returns a result. *)
Lemma negative_input_is_written :
  add_customer (env_at "c9" "2024-05-20T11:00:00" "2024-05") testcorp_store
    "s1" "Debtor" (-5) "monthly"
  = Ok ({| cd_id := "c9"; cd_name := "Debtor"; cd_mrr := -5; cd_plan := "monthly" |},
        set_customers testcorp_store
          [{| c_id := "c9"; c_startup_id := "s1"; c_name := "Debtor";
              c_plan := "monthly"; c_mrr := -5; c_status := "active";
              c_started_at := "2024-05-20T11:00:00"; c_churned_at := None;
              c_notes := Some EmptyString |}]) /\
  (-5 <? 0)%float = true /\
  calculate_runway testcorp_store "s1" (-5)
  = Ok {| total_raised := 0; mrr := 0; monthly_burn := -5; net_burn := 0;
          runway_months := Infinite |}.
Proof. repeat split; vm_compute; reflexivity. Qed.

(** * Further properties of the service *)

(** ** list_startups *)

Lemma insert_by_created_desc_perm (r : startup_row) (l : list startup_row) :
  Permutation (insert_by_created_desc r l) (r :: l).
Proof.
  induction l as [| x l IH]; simpl.
  - apply Permutation_refl.
  - destruct (Sql.text_le (s_created_at x) (s_created_at r)).
    + apply Permutation_refl.
    + eapply perm_trans; [apply perm_skip, IH | apply perm_swap].
Qed.

Lemma insert_by_created_desc_hd (a r : startup_row) (l : list startup_row) :
  created_ge a r -> HdRel created_ge a l ->
  HdRel created_ge a (insert_by_created_desc r l).
Proof.
  intros Har Hal. destruct l as [| x l]; simpl.
  - constructor. exact Har.
  - destruct (Sql.text_le (s_created_at x) (s_created_at r)); constructor.
    + exact Har.
    + inversion Hal; assumption.
Qed.

Lemma insert_by_created_desc_sorted (r : startup_row) (l : list startup_row) :
  Sorted created_ge l -> Sorted created_ge (insert_by_created_desc r l).
Proof.
  induction l as [| x l IH]; simpl; intros Hs.
  - repeat constructor.
  - destruct (Sql.text_le (s_created_at x) (s_created_at r)) eqn:Hle.
    + constructor; [exact Hs | constructor; exact Hle].
    + inversion Hs as [| ? ? Hs' Hhd]; subst.
      constructor; [apply IH, Hs' |].
      apply insert_by_created_desc_hd; [| exact Hhd].
      unfold created_ge, Sql.text_le in *.
      destruct (String.leb_total (s_created_at x) (s_created_at r)); congruence.
Qed.

(** X16: [list_startups] returns every startup of the store, each once per
    row, newest first: in non-increasing order of [created_at]. *)
Theorem list_startups_newest_first (st : Store) :
  exists rows,
    list_startups st = Ok rows /\
    Sorted created_ge rows /\
    Permutation rows (startups st).
Proof.
  eexists. split; [reflexivity |]. unfold order_by_created_desc. split.
  - induction (startups st) as [| x l IH]; simpl.
    + constructor.
    + apply insert_by_created_desc_sorted, IH.
  - induction (startups st) as [| x l IH]; simpl.
    + constructor.
    + eapply perm_trans; [apply insert_by_created_desc_perm | apply perm_skip, IH].
Qed.

(** ** record_metric and Metric.from_row *)

(** X9: reading back with [Metric.from_row] the row that [record_metric]
    stored gives the [Metric] that [record_metric] returned, up to the value,
    which is the stored one (the same number; a zero is stored as [0.0]). *)
Theorem record_metric_from_row (env : Env) (st st' : Store)
    (startup_id metric_type notes : string) (v : float) (p : option string)
    (m : metric_row) :
  record_metric env st startup_id metric_type v p notes = Ok (m, st') ->
  exists row,
    metrics st' = metrics st ++ [row] /\
    Sql.real v = Some (m_value row) /\
    m_value m = v /\
    Metric_from_row row =
      {| m_id := m_id m; m_startup_id := m_startup_id m;
         m_metric_type := m_metric_type m; m_value := m_value row;
         m_period := m_period m; m_notes := m_notes m;
         m_recorded_at := m_recorded_at m |}.
Proof.
  unfold record_metric. destruct (Sql.real v) as [x |]; simpl; [| discriminate].
  unfold Sql.insert. destruct (existsb _ _); simpl; [discriminate |].
  intros H. injection H as <- <-. eexists. split; [reflexivity |].
  split; [reflexivity |]. split; [reflexivity |].
  unfold Metric_from_row; simpl. destruct notes; reflexivity.
Qed.

Lemma record_metric_from_row_witness :
  exists m st',
    record_metric (env_at "m1" "2024-05-20T11:00:00" "2024-05") testcorp_store
      "s1" "nps" 42 None "" = Ok (m, st') /\
    exists row, metrics st' = [row] /\ m_value row = 42%float.
Proof.
  do 2 eexists. split; [reflexivity |].
  destruct (record_metric_from_row
              (env_at "m1" "2024-05-20T11:00:00" "2024-05") testcorp_store _
              "s1" "nps" "" 42 None _ eq_refl) as (row & Hrow & Hv & _).
  exists row. split; [exact Hrow |].
  vm_compute in Hv. injection Hv as Hv. symmetry. exact Hv.
Defined.

(** X17: a period that is missing or the empty string stands for the current
    month, in [calculate_churn_rate] and in [record_metric] alike: both behave
    as when the current month is passed. *)
Theorem empty_period_is_current_month (env : Env) (st : Store)
    (startup_id metric_type notes : string) (v : float) :
  calculate_churn_rate env st startup_id None =
    calculate_churn_rate env st startup_id (Some (utcnow_year_month env)) /\
  calculate_churn_rate env st startup_id (Some EmptyString) =
    calculate_churn_rate env st startup_id (Some (utcnow_year_month env)) /\
  record_metric env st startup_id metric_type v None notes =
    record_metric env st startup_id metric_type v (Some (utcnow_year_month env)) notes /\
  record_metric env st startup_id metric_type v (Some EmptyString) notes =
    record_metric env st startup_id metric_type v (Some (utcnow_year_month env)) notes.
Proof.
  assert (H1 : Py.or_str None (utcnow_year_month env) =
               Py.or_str (Some (utcnow_year_month env)) (utcnow_year_month env)).
  { destruct (utcnow_year_month env); reflexivity. }
  assert (H2 : Py.or_str (Some EmptyString) (utcnow_year_month env) =
               Py.or_str (Some (utcnow_year_month env)) (utcnow_year_month env)).
  { destruct (utcnow_year_month env); reflexivity. }
  unfold calculate_churn_rate, record_metric.
  rewrite H1, H2. repeat split; reflexivity.
Qed.

(** ** LIKE on a period of digits and hyphens *)

Lemma plain_char_not_wildcard (c : ascii) :
  plain_char c = true -> Ascii.eqb c "%" = false /\ Ascii.eqb c "_" = false.
Proof.
  destruct c as [[] [] [] [] [] [] [] []]; vm_compute; intros H;
    try discriminate H; split; reflexivity.
Qed.

Lemma plain_char_upper (c d : ascii) :
  plain_char c = true ->
  Ascii.eqb (Sql.upper c) (Sql.upper d) = Ascii.eqb c d.
Proof.
  destruct c as [[] [] [] [] [] [] [] []]; vm_compute plain_char; intros H;
    try discriminate H; clear H;
    destruct d as [[] [] [] [] [] [] [] []]; vm_compute; reflexivity.
Qed.

(** For a pattern of digits and hyphens followed by [%], LIKE is the prefix
    test. *)
Lemma like_plain_prefix (p t : string) :
  plain p = true -> Sql.like (p ++ "%") t = String.prefix p t.
Proof.
  revert t. induction p as [| c p IH]; intros t Hp.
  - simpl append. rewrite like_percent. destruct t; reflexivity.
  - simpl in Hp. apply andb_true_iff in Hp. destruct Hp as (Hc & Hp).
    change ((String c p ++ "%")%string) with (String c (p ++ "%")).
    rewrite like_cons.
    destruct (plain_char_not_wildcard c Hc) as (-> & ->).
    destruct t as [| d t]; [reflexivity |].
    rewrite (plain_char_upper c d Hc), (IH t Hp). simpl.
    destruct (ascii_dec c d) as [-> | Hne].
    + rewrite Ascii.eqb_refl. reflexivity.
    + apply Ascii.eqb_neq in Hne. rewrite Hne. reflexivity.
Qed.

(** X10: for a period written with digits and hyphens (a [YYYY-MM]), the
    [churned] count is the number of customers of the startup whose status is
    ['churned'] and whose [churned_at] starts with the period: the LIKE test
    is then exactly the prefix test. *)
Theorem churned_counts_period_prefix (env : Env) (st : Store)
    (startup_id per : string) :
  plain per = true -> per <> EmptyString ->
  exists r,
    calculate_churn_rate env st startup_id (Some per) = Ok r /\
    period r = per /\
    churned r =
      Sql.count
        (filter (fun c => String.eqb (c_startup_id c) startup_id
                          && String.eqb (c_status c) "churned"
                          && match c_churned_at c with
                             | Some t => String.prefix per t
                             | None => false
                             end)
           (customers st)).
Proof.
  intros Hp Hne.
  destruct (calculate_churn_rate_returns env st startup_id (Some per)) as (r & Hr).
  exists r. split; [exact Hr |].
  unfold calculate_churn_rate in Hr.
  assert (Hper : Py.or_str (Some per) (utcnow_year_month env) = per).
  { destruct per; [contradiction | reflexivity]. }
  rewrite Hper in Hr.
  destruct (if (0 <? _)%Z then _ else _) as [rate | e]; simpl in Hr;
    [| discriminate].
  injection Hr as <-. simpl. split; [reflexivity |].
  f_equal. apply filter_ext. intros c.
  destruct (c_churned_at c) as [t |]; [| reflexivity].
  rewrite (like_plain_prefix per t Hp). reflexivity.
Qed.

Lemma churned_counts_period_prefix_witness :
  exists r,
    calculate_churn_rate (env_at "" "2024-06-02T11:00:00" "2024-06")
      (set_customers init_db [pre_period_customer; same_period_customer])
      "s1" (Some "2024-05"%string) = Ok r /\
    churned r = 1%Z.
Proof.
  destruct (churned_counts_period_prefix
              (env_at "" "2024-06-02T11:00:00" "2024-06")
              (set_customers init_db [pre_period_customer; same_period_customer])
              "s1" "2024-05") as (r & Hr & _ & Hc).
  - reflexivity.
  - discriminate.
  - exists r. split; [exact Hr |]. rewrite Hc. reflexivity.
Defined.

(** ** Primary keys *)

Lemma existsb_eqb_false {row : Type} (key : row -> string) (k : string)
    (table : list row) :
  existsb (fun x => String.eqb (key x) k) table = false ->
  ~ In k (map key table).
Proof.
  induction table as [| x l IH]; simpl; intros H.
  - intros [].
  - apply orb_false_iff in H. destruct H as (Hx & Hl).
    intros [Heq | Hin].
    + apply String.eqb_neq in Hx. contradiction.
    + exact (IH Hl Hin).
Qed.

Lemma insert_keys_unique {row : Type} (key : row -> string) (r : row)
    (table table' : list row) :
  Sql.insert key r table = Ok table' ->
  NoDup (map key table) -> NoDup (map key table').
Proof.
  unfold Sql.insert. destruct (existsb _ table) eqn:E; [discriminate |].
  intros H Hnd. injection H as <-.
  rewrite map_app. simpl.
  apply NoDup_rev in Hnd. rewrite <- (rev_involutive (map key table ++ [key r])).
  apply NoDup_rev. rewrite rev_app_distr. simpl. constructor; [| exact Hnd].
  rewrite <- in_rev. apply existsb_eqb_false. exact E.
Qed.

Lemma churn_customer_ids (env : Env) (st : Store) (customer_id : string) :
  map c_id (customers (after (churn_customer env st customer_id) st)) =
  map c_id (customers st).
Proof.
  simpl. rewrite map_map. apply map_ext. intros c.
  destruct (String.eqb (c_id c) customer_id); reflexivity.
Qed.

Lemma exec_keys_unique (env : Env) (c : call) (st : Store) :
  keys_unique st -> keys_unique (exec env c st).
Proof.
  intros (Hs & Hm & Hc & He & Hf).
  destruct c as [n s f | a mt v p nts | a n v pl | customer_id | a n r d v
                | a rn v val inv]; simpl.
  - unfold create_startup.
    destruct (Sql.insert _ _ _) as [t |] eqn:E; simpl;
      [| repeat split; assumption].
    apply insert_keys_unique in E; [| exact Hs]. repeat split; assumption.
  - unfold record_metric. destruct (Sql.real v); simpl;
      [| repeat split; assumption].
    destruct (Sql.insert _ _ _) as [t |] eqn:E; simpl;
      [| repeat split; assumption].
    apply insert_keys_unique in E; [| exact Hm]. repeat split; assumption.
  - unfold add_customer. destruct (Sql.real v); simpl;
      [| repeat split; assumption].
    destruct (Sql.insert _ _ _) as [t |] eqn:E; simpl;
      [| repeat split; assumption].
    apply insert_keys_unique in E; [| exact Hc]. repeat split; assumption.
  - pose proof (churn_customer_ids env st customer_id) as Hids.
    simpl in Hids. unfold keys_unique. simpl. rewrite Hids.
    repeat split; assumption.
  - unfold add_employee. destruct (Sql.real v); simpl;
      [| repeat split; assumption].
    destruct (Sql.insert _ _ _) as [t |] eqn:E; simpl;
      [| repeat split; assumption].
    apply insert_keys_unique in E; [| exact He]. repeat split; assumption.
  - unfold add_funding. destruct (Sql.real v); simpl;
      [| repeat split; assumption].
    destruct (Sql.insert _ _ _) as [t |] eqn:E; simpl;
      [| repeat split; assumption].
    apply insert_keys_unique in E; [| exact Hf]. repeat split; assumption.
Qed.

(** X1: in every store the operations can produce from the empty database,
    the identifiers of each table are pairwise distinct: an insert whose
    generated identifier is already used is refused and changes nothing. *)
Theorem primary_keys_unique (st : Store) :
  reachable st -> keys_unique st.
Proof.
  induction 1 as [| env c st Hr IH].
  - repeat split; constructor.
  - apply exec_keys_unique. exact IH.
Qed.

Lemma primary_keys_unique_witness :
  keys_unique
    (exec (env_at "c1" "2024-05-03T09:00:00" "2024-05")
       (AddCustomer "s1" "Again" 300 "monthly")
       (exec (env_at "c1" "2024-05-02T09:00:00" "2024-05")
          (AddCustomer "s1" "Soon Gone" 200 "monthly") init_db)).
Proof.
  apply primary_keys_unique. apply reachable_exec. apply reachable_exec.
  apply reachable_init.
Defined.

(** ** churn_customer *)

Lemma store_eta (st : Store) : set_customers st (customers st) = st.
Proof. destruct st; reflexivity. Qed.

(** X3: [churn_customer] with an identifier that no customer has is not an
    error: it returns and leaves the store exactly as it was. *)
Theorem churn_customer_unknown_is_noop (env : Env) (st : Store)
    (customer_id : string) :
  (forall c, In c (customers st) -> c_id c <> customer_id) ->
  churn_customer env st customer_id = Ok (tt, st).
Proof.
  intros H. unfold churn_customer. do 2 f_equal.
  transitivity (set_customers st (customers st)); [| apply store_eta].
  f_equal.
  transitivity (map (fun c : customer_row => c) (customers st)); [| apply map_id].
  apply map_ext_in. intros c Hin.
  rewrite (eqb_other _ _ (H c Hin)). reflexivity.
Qed.

Lemma churn_customer_unknown_is_noop_witness :
  churn_customer (env_at "" "2024-05-20T11:00:00" "2024-05") one_customer_store
    "nobody" = Ok (tt, one_customer_store).
Proof.
  apply churn_customer_unknown_is_noop.
  intros c [<- | []]. discriminate.
Defined.

(** X4: [churn_customer] rewrites nothing but [status] and [churned_at]: the
    customers keep their order, identifiers, startups, names, plans, start
    timestamps and [mrr] (the revenue of a churned customer stays on record),
    and the other four tables are untouched. *)
Theorem churn_customer_keeps_history (env : Env) (st st' : Store)
    (customer_id : string) (u : unit) :
  churn_customer env st customer_id = Ok (u, st') ->
  map c_id (customers st') = map c_id (customers st) /\
  map c_startup_id (customers st') = map c_startup_id (customers st) /\
  map c_name (customers st') = map c_name (customers st) /\
  map c_plan (customers st') = map c_plan (customers st) /\
  map c_mrr (customers st') = map c_mrr (customers st) /\
  map c_started_at (customers st') = map c_started_at (customers st) /\
  startups st' = startups st /\ metrics st' = metrics st /\
  employees st' = employees st /\ funding_rounds st' = funding_rounds st.
Proof.
  unfold churn_customer. intros H. injection H as _ <-. simpl.
  repeat split;
    rewrite map_map; apply map_ext; intros c;
    destruct (String.eqb (c_id c) customer_id); reflexivity.
Qed.

Lemma churn_customer_keeps_history_witness :
  exists st',
    churn_customer (env_at "" "2024-05-20T11:00:00" "2024-05") one_customer_store
      "c0" = Ok (tt, st') /\
    map c_mrr (customers st') = [100%float].
Proof.
  eexists. split; [reflexivity |].
  destruct (churn_customer_keeps_history
              (env_at "" "2024-05-20T11:00:00" "2024-05") one_customer_store _
              "c0" tt eq_refl) as (_ & _ & _ & _ & H & _).
  exact H.
Defined.

(** X5: after [churn_customer], the active customers of every startup are the
    former ones without the customer churned, and [calculate_mrr] is the
    rounded sum over those: the revenue of the churned customer no longer
    counts. *)
Theorem churn_customer_leaves_active (env : Env) (st st' : Store)
    (customer_id startup_id : string) (u : unit) :
  churn_customer env st customer_id = Ok (u, st') ->
  active_customers st' startup_id =
    filter (fun c => negb (String.eqb (c_id c) customer_id))
      (active_customers st startup_id) /\
  calculate_mrr st' startup_id =
    Ok (Py.round
          (Py.or_zero
             (Sql.sum
                (map c_mrr
                   (filter (fun c => negb (String.eqb (c_id c) customer_id))
                      (active_customers st startup_id))))) 2).
Proof.
  unfold churn_customer. intros H. injection H as _ <-.
  assert (Hact : active_customers
                   (set_customers st
                      (map (fun c =>
                              if String.eqb (c_id c) customer_id
                              then {| c_id := c_id c; c_startup_id := c_startup_id c;
                                      c_name := c_name c; c_plan := c_plan c;
                                      c_mrr := c_mrr c; c_status := "churned";
                                      c_started_at := c_started_at c;
                                      c_churned_at := Some (utcnow_isoformat env);
                                      c_notes := c_notes c |}
                              else c) (customers st))) startup_id =
                 filter (fun c => negb (String.eqb (c_id c) customer_id))
                   (active_customers st startup_id)).
  { unfold active_customers. simpl customers.
    induction (customers st) as [| c l IH]; simpl; [reflexivity |].
    destruct (String.eqb (c_id c) customer_id) eqn:Eid; simpl.
    - rewrite andb_false_r.
      destruct (String.eqb (c_startup_id c) startup_id && String.eqb (c_status c) "active");
        simpl; [rewrite Eid; simpl |]; exact IH.
    - destruct (String.eqb (c_startup_id c) startup_id && String.eqb (c_status c) "active");
        simpl; [rewrite Eid; simpl; f_equal |]; exact IH. }
  split; [exact Hact |].
  rewrite calculate_mrr_total, Hact. reflexivity.
Qed.

Lemma churn_customer_leaves_active_witness :
  exists st',
    churn_customer (env_at "" "2024-05-20T11:00:00" "2024-05") three_customer_store
      "a" = Ok (tt, st') /\
    calculate_mrr st' "s1" = Ok 300%float.
Proof.
  eexists. split; [reflexivity |].
  destruct (churn_customer_leaves_active
              (env_at "" "2024-05-20T11:00:00" "2024-05") three_customer_store _
              "a" "s1" tt eq_refl) as (_ & H).
  rewrite H. reflexivity.
Defined.

Lemma count_filter_pos {row : Type} (f : row -> bool) (x : row) (l : list row) :
  In x l -> f x = true -> (1 <= Sql.count (filter f l))%Z.
Proof.
  intros Hin Hf. unfold Sql.count.
  assert (Hx : In x (filter f l)) by (apply filter_In; split; assumption).
  destruct (filter f l); [destruct Hx | simpl; lia].
Qed.

(** X6: churning a customer and then asking for the churn of the month of
    the churn reports [churned >= 1]: the churn timestamp is the clock's
    [isoformat], which starts with the clock's [YYYY-MM]. *)
Theorem churn_then_churn_rate (env env' : Env) (st st' : Store)
    (c : customer_row) (rest : string) (u : unit) :
  In c (customers st) ->
  utcnow_isoformat env = (utcnow_year_month env' ++ rest)%string ->
  churn_customer env st (c_id c) = Ok (u, st') ->
  exists r,
    calculate_churn_rate env' st' (c_startup_id c) None = Ok r /\
    (1 <= churned r)%Z.
Proof.
  intros Hin Hclock H.
  destruct (calculate_churn_rate_returns env' st' (c_startup_id c) None) as (r & Hr).
  exists r. split; [exact Hr |].
  unfold calculate_churn_rate in Hr.
  destruct (if (0 <? _)%Z then _ else _) as [rate | e]; simpl in Hr;
    [| discriminate].
  injection Hr as <-. simpl.
  unfold churn_customer in H. injection H as _ <-. simpl customers.
  eapply count_filter_pos.
  - apply in_map. exact Hin.
  - simpl. rewrite String.eqb_refl. simpl. rewrite String.eqb_refl.
    rewrite Hclock. simpl. apply like_prefix.
Qed.

Lemma churn_then_churn_rate_witness :
  exists st' r,
    churn_customer (env_at "" "2024-05-20T11:00:00" "2024-05") one_customer_store
      "c0" = Ok (tt, st') /\
    calculate_churn_rate (env_at "" "2024-05-21T08:00:00" "2024-05") st' "s1" None
      = Ok r /\
    (1 <= churned r)%Z.
Proof.
  destruct (churn_then_churn_rate
              (env_at "" "2024-05-20T11:00:00" "2024-05")
              (env_at "" "2024-05-21T08:00:00" "2024-05")
              one_customer_store
              (after (churn_customer (env_at "" "2024-05-20T11:00:00" "2024-05")
                        one_customer_store "c0") one_customer_store)
              pre_period_customer "-20T11:00:00" tt)
    as (r & Hr & Hc).
  - left. reflexivity.
  - reflexivity.
  - reflexivity.
  - do 2 eexists. split; [reflexivity |]. split; [exact Hr | exact Hc].
Defined.

(** ** add_customer and the active sum *)

Lemma sum_mrr_from_app (l : list customer_row) (c : customer_row) (acc : float) :
  sum_mrr_from acc (l ++ [c]) = (sum_mrr_from acc l + c_mrr c)%float.
Proof.
  revert acc. induction l as [| x l IH]; intros acc; simpl.
  - reflexivity.
  - apply IH.
Qed.

(** X7: a successful [add_customer] puts the new customer last among the
    active customers of its startup, and the active sum of that startup
    becomes the former sum plus the stored [mrr]. *)
Theorem add_customer_adds_mrr (env : Env) (st st' : Store)
    (startup_id name plan : string) (v : float) (d : customer_dict) :
  add_customer env st startup_id name v plan = Ok (d, st') ->
  exists row,
    Sql.real v = Some (c_mrr row) /\
    c_id row = cd_id d /\
    active_customers st' startup_id = active_customers st startup_id ++ [row] /\
    sum_active_mrr st' startup_id =
      (sum_active_mrr st startup_id + c_mrr row)%float.
Proof.
  unfold add_customer. destruct (Sql.real v) as [x |]; simpl; [| discriminate].
  unfold Sql.insert. destruct (existsb _ _); simpl; [discriminate |].
  intros H. injection H as <- <-.
  exists {| c_id := uuid4 env; c_startup_id := startup_id; c_name := name;
            c_plan := plan; c_mrr := x; c_status := "active";
            c_started_at := utcnow_isoformat env; c_churned_at := None;
            c_notes := Some EmptyString |}.
  split; [reflexivity |]. split; [reflexivity |].
  assert (Hact : forall r,
            c_startup_id r = startup_id -> c_status r = "active"%string ->
            active_customers (set_customers st (customers st ++ [r])) startup_id =
            active_customers st startup_id ++ [r]).
  { intros r Hs Ha. unfold active_customers. simpl customers.
    rewrite filter_app. simpl. rewrite Hs, Ha, String.eqb_refl. reflexivity. }
  split.
  - apply Hact; reflexivity.
  - unfold sum_active_mrr. rewrite Hact by reflexivity.
    apply sum_mrr_from_app.
Qed.

Lemma add_customer_adds_mrr_witness :
  exists d st',
    add_customer (env_at "c7" "2024-05-20T11:00:00" "2024-05") three_customer_store
      "s1" "Customer C" 50 "monthly" = Ok (d, st') /\
    sum_active_mrr st' "s1" = 850%float.
Proof.
  do 2 eexists. split; [reflexivity |].
  destruct (add_customer_adds_mrr
              (env_at "c7" "2024-05-20T11:00:00" "2024-05") three_customer_store _
              "s1" "Customer C" "monthly" 50 _ eq_refl) as (row & Hv & _ & _ & Hsum).
  assert (Hx : c_mrr row = 50%float).
  { vm_compute in Hv. injection Hv as Hv. symmetry. exact Hv. }
  rewrite Hsum, Hx. reflexivity.
Defined.

(** ** record_metric and metric_history *)

(** X8: after a successful [record_metric], [metric_history] of the same
    startup and label holds the stored observation besides the former ones;
    the history of any other startup or label is unchanged. *)
Theorem record_metric_then_history (env : Env) (st st' : Store)
    (startup_id metric_type notes : string) (v : float) (p : option string)
    (m : metric_row) :
  record_metric env st startup_id metric_type v p notes = Ok (m, st') ->
  (exists row h h',
     m_id row = m_id m /\ m_period row = m_period m /\
     Sql.real v = Some (m_value row) /\
     metric_history st startup_id metric_type = Ok h /\
     metric_history st' startup_id metric_type = Ok h' /\
     Permutation h' (row :: h)) /\
  (forall startup_id' metric_type',
     startup_id' <> startup_id \/ metric_type' <> metric_type ->
     metric_history st' startup_id' metric_type' =
     metric_history st startup_id' metric_type').
Proof.
  unfold record_metric. destruct (Sql.real v) as [x |]; simpl; [| discriminate].
  unfold Sql.insert. destruct (existsb _ _); simpl; [discriminate |].
  intros H. injection H as <- <-. split.
  - exists {| m_id := uuid4 env; m_startup_id := startup_id;
              m_metric_type := metric_type; m_value := x;
              m_period := Py.or_str p (utcnow_year_month env);
              m_notes := Some notes; m_recorded_at := utcnow_isoformat env |}.
    do 2 eexists. split; [reflexivity |]. split; [reflexivity |].
    split; [reflexivity |]. split; [reflexivity |]. split; [reflexivity |].
    simpl metrics. rewrite filter_app. simpl. rewrite !String.eqb_refl. simpl.
    eapply perm_trans; [apply order_by_period_perm |].
    eapply perm_trans; [apply Permutation_app_comm |]. simpl.
    apply perm_skip. apply Permutation_sym, order_by_period_perm.
  - intros sid' mt' Hne. unfold metric_history. simpl metrics.
    rewrite filter_app. simpl.
    assert (Hf : String.eqb startup_id sid' && String.eqb metric_type mt' = false).
    { destruct Hne as [Hne | Hne].
      - rewrite (eqb_other startup_id sid'); [reflexivity | congruence].
      - rewrite (eqb_other metric_type mt'); [apply andb_false_r | congruence]. }
    rewrite Hf, app_nil_r. reflexivity.
Qed.

Lemma record_metric_then_history_witness :
  exists m st' h,
    record_metric (env_at "m1" "2024-05-20T11:00:00" "2024-05") testcorp_store
      "s1" "nps" 42 None "" = Ok (m, st') /\
    metric_history st' "s1" "nps" = Ok h /\
    List.length h = 1%nat.
Proof.
  do 2 eexists.
  destruct (record_metric_then_history
              (env_at "m1" "2024-05-20T11:00:00" "2024-05") testcorp_store _
              "s1" "nps" "" 42 None _ eq_refl)
    as ((row & h & h' & _ & _ & _ & Hh & Hh' & Hperm) & _).
  exists h'. split; [reflexivity |]. split; [exact Hh' |].
  rewrite (Permutation_length Hperm).
  vm_compute in Hh. injection Hh as <-. reflexivity.
Defined.

(** ** headcount *)

Lemma headcount_value (st : Store) (startup_id : string) :
  headcount st startup_id =
  Ok {| total_headcount := Sql.count (current_employees st startup_id);
        total_salary_cost :=
          Py.round (Py.or_zero (Sql.sum (map e_salary (current_employees st startup_id)))) 2;
        by_department :=
          map (fun r => (fst r, {| count := fst (snd r);
                                   salary := Py.round (Py.or_zero (snd (snd r))) 2 |}))
            (group_by_department (current_employees st startup_id)) |}.
Proof. reflexivity. Qed.

Lemma sum_counts_groups (rows : list employee_row) (ds : list string) :
  sum_counts
    (map (fun r : string * (Z * option float) =>
            (fst r, {| count := fst (snd r);
                       salary := Py.round (Py.or_zero (snd (snd r))) 2 |}))
       (map (fun d =>
               let g := filter (fun e => String.eqb (e_department e) d) rows in
               (d, (Sql.count g, Sql.sum (map e_salary g)))) ds)) =
  fold_right (fun d acc => (department_size rows d + acc)%Z) 0%Z ds.
Proof.
  induction ds as [| d ds IH]; simpl.
  - reflexivity.
  - rewrite <- IH. reflexivity.
Qed.

Lemma department_sizes_cons (e : employee_row) (rows : list employee_row)
    (ds : list string) :
  fold_right (fun d acc => (department_size (e :: rows) d + acc)%Z) 0%Z ds =
  (fold_right (fun d acc => (department_size rows d + acc)%Z) 0%Z ds
   + Z.of_nat (count_occ string_dec ds (e_department e)))%Z.
Proof.
  induction ds as [| d ds IH]; simpl.
  - reflexivity.
  - rewrite IH. unfold department_size, Sql.count. simpl.
    destruct (String.eqb_spec (e_department e) d) as [Heq | Hne].
    + destruct (string_dec d (e_department e)) as [_ | Hd]; [| congruence].
      simpl List.length. lia.
    + destruct (string_dec d (e_department e)) as [Hd | _]; [congruence |].
      lia.
Qed.

Lemma department_sizes_total (rows : list employee_row) (ds : list string) :
  NoDup ds ->
  (forall e, In e rows -> In (e_department e) ds) ->
  fold_right (fun d acc => (department_size rows d + acc)%Z) 0%Z ds =
  Sql.count rows.
Proof.
  intros Hnd. induction rows as [| e rows IH]; intros Hin.
  - clear Hnd Hin. induction ds as [| d ds IHd]; cbn [fold_right].
    + reflexivity.
    + rewrite IHd. reflexivity.
  - rewrite department_sizes_cons, IH.
    + assert (Hocc : count_occ string_dec ds (e_department e) = 1%nat).
      { apply NoDup_count_occ'; [exact Hnd |]. apply Hin. left. reflexivity. }
      rewrite Hocc. unfold Sql.count. simpl List.length. lia.
    + intros x Hx. apply Hin. right. exact Hx.
Qed.

(** X11: in the result of [headcount], the departments of [by_department] are
    pairwise distinct, each has at least one current employee (a department
    without one has no entry), and their counts add up to
    [total_headcount]. *)
Theorem headcount_departments_partition (st : Store) (startup_id : string) :
  exists h,
    headcount st startup_id = Ok h /\
    NoDup (map fst (by_department h)) /\
    Forall (fun e => (1 <= count (snd e))%Z) (by_department h) /\
    sum_counts (by_department h) = total_headcount h.
Proof.
  eexists. split; [apply headcount_value |]. simpl.
  set (rows := current_employees st startup_id).
  unfold group_by_department. split; [| split].
  - rewrite !map_map. simpl. rewrite map_id. apply NoDup_nodup.
  - rewrite !Forall_map. simpl. apply Forall_forall. intros d Hd.
    apply nodup_In in Hd. apply in_map_iff in Hd. destruct Hd as (e & <- & He).
    apply (count_filter_pos _ e); [exact He | apply String.eqb_refl].
  - rewrite sum_counts_groups. apply department_sizes_total.
    + apply NoDup_nodup.
    + intros e He. apply nodup_In. apply in_map. exact He.
Qed.

(** X12: a successful [add_employee] raises the [total_headcount] of its
    startup by one. *)
Theorem add_employee_then_headcount (env : Env) (st st' : Store)
    (startup_id name role department : string) (v : float) (d : employee_dict) :
  add_employee env st startup_id name role department v = Ok (d, st') ->
  exists h h',
    headcount st startup_id = Ok h /\
    headcount st' startup_id = Ok h' /\
    total_headcount h' = (total_headcount h + 1)%Z.
Proof.
  unfold add_employee. destruct (Sql.real v) as [x |]; simpl; [| discriminate].
  unfold Sql.insert. destruct (existsb _ _); simpl; [discriminate |].
  intros H. injection H as _ <-.
  do 2 eexists. split; [apply headcount_value |]. split; [apply headcount_value |].
  simpl. unfold current_employees. simpl employees.
  rewrite filter_app. simpl. rewrite String.eqb_refl. simpl.
  unfold Sql.count. rewrite length_app. simpl. lia.
Qed.

Lemma add_employee_then_headcount_witness :
  exists d st' h',
    add_employee (env_at "e1" "2024-05-20T11:00:00" "2024-05") testcorp_store
      "s1" "Alice" "Engineer" "eng" 120000 = Ok (d, st') /\
    headcount st' "s1" = Ok h' /\
    total_headcount h' = 1%Z.
Proof.
  do 2 eexists.
  destruct (add_employee_then_headcount
              (env_at "e1" "2024-05-20T11:00:00" "2024-05") testcorp_store _
              "s1" "Alice" "Engineer" "eng" 120000 _ eq_refl)
    as (h & h' & Hh & Hh' & Ht).
  exists h'. split; [reflexivity |]. split; [exact Hh' |].
  rewrite Ht. vm_compute in Hh. injection Hh as <-. reflexivity.
Defined.

(** ** kpi_dashboard, composed *)

Lemma kpi_dashboard_value (env : Env) (st : Store) (startup_id : string)
    (burn : float) :
  exists m c h,
    calculate_mrr st startup_id = Ok m /\
    calculate_churn_rate env st startup_id None = Ok c /\
    headcount st startup_id = Ok h /\
    kpi_dashboard env st startup_id burn =
    Ok {| d_startup :=
            match find (fun s => String.eqb (s_id s) startup_id) (startups st) with
            | Some s => s_name s
            | None => "Unknown"%string
            end;
          d_mrr := m;
          d_arr := Py.round (m * 12)%float 2;
          d_churn := c;
          d_runway :=
            if (0 <? burn)%float
            then match calculate_runway st startup_id burn with
                 | Ok r => Some r
                 | Raise _ => None
                 end
            else None;
          d_headcount := h;
          d_as_of := utcnow_isoformat env |}.
Proof.
  destruct (calculate_churn_rate_returns env st startup_id None) as (c & Hc).
  destruct (calculate_runway_value st startup_id burn) as (m & Hm & Hr).
  exists m, c. eexists. split; [exact Hm |]. split; [exact Hc |].
  split; [reflexivity |].
  unfold kpi_dashboard, calculate_arr. rewrite Hm, Hc. simpl bind.
  destruct (0 <? burn)%float.
  - rewrite Hr. reflexivity.
  - reflexivity.
Qed.

Lemma find_app_last {A : Type} (f : A -> bool) (l : list A) (r : A) :
  existsb f l = false -> find f (l ++ [r]) = find f [r].
Proof.
  induction l as [| x l IH]; simpl; intros H.
  - reflexivity.
  - apply orb_false_iff in H. destruct H as (-> & Hl). apply IH. exact Hl.
Qed.

(** X13: the startup that [create_startup] returns is found again: its
    identifier is the generated one, and [kpi_dashboard] of that identifier
    shows the name it was created with. *)
Theorem create_startup_then_dashboard (env env' : Env) (st st' : Store)
    (name stage : string) (founded_date : option string) (row : startup_row)
    (burn : float) :
  create_startup env st name stage founded_date = Ok (row, st') ->
  s_id row = uuid4 env /\
  s_name row = name /\
  startups st' = startups st ++ [row] /\
  exists d, kpi_dashboard env' st' (s_id row) burn = Ok d /\ d_startup d = name.
Proof.
  unfold create_startup, Sql.insert.
  destruct (existsb _ (startups st)) eqn:E; simpl; [discriminate |].
  intros H. injection H as <- <-. simpl.
  split; [reflexivity |]. split; [reflexivity |]. split; [reflexivity |].
  destruct (kpi_dashboard_value env'
              (set_startups st
                 (startups st ++
                  [{| s_id := uuid4 env; s_name := name; s_stage := stage;
                      s_founded_date := founded_date;
                      s_created_at := utcnow_isoformat env;
                      s_updated_at := utcnow_isoformat env |}]))
              (uuid4 env) burn) as (m & c & h & _ & _ & _ & Hd).
  eexists. split; [exact Hd |]. simpl.
  rewrite find_app_last by exact E. simpl. rewrite String.eqb_refl. reflexivity.
Qed.

Lemma create_startup_then_dashboard_witness :
  exists row st' d,
    create_startup (env_at "s2" "2024-05-20T11:00:00" "2024-05") testcorp_store
      "AnotherCorp" "seed" None = Ok (row, st') /\
    kpi_dashboard (env_at "" "2024-05-21T08:00:00" "2024-05") st' "s2" 0 = Ok d /\
    d_startup d = "AnotherCorp"%string.
Proof.
  do 2 eexists.
  destruct (create_startup_then_dashboard
              (env_at "s2" "2024-05-20T11:00:00" "2024-05")
              (env_at "" "2024-05-21T08:00:00" "2024-05") testcorp_store _
              "AnotherCorp" "seed" None _ 0 eq_refl)
    as (_ & _ & _ & d & Hd & Hname).
  exists d. split; [reflexivity |]. split; [exact Hd | exact Hname].
Defined.

(** X14: [kpi_dashboard] of an identifier that no startup has does not fail:
    it returns a snapshot under the placeholder name ["Unknown"]. *)
Theorem kpi_dashboard_stale_id (env : Env) (st : Store) (startup_id : string)
    (burn : float) :
  (forall s, In s (startups st) -> s_id s <> startup_id) ->
  exists d,
    kpi_dashboard env st startup_id burn = Ok d /\
    d_startup d = "Unknown"%string.
Proof.
  intros H.
  destruct (kpi_dashboard_value env st startup_id burn)
    as (m & c & h & _ & _ & _ & Hd).
  eexists. split; [exact Hd |]. simpl.
  destruct (find _ (startups st)) as [s |] eqn:E; [| reflexivity].
  apply find_some in E. destruct E as (Hin & Heq).
  apply String.eqb_eq in Heq. destruct (H s Hin Heq).
Qed.

Lemma kpi_dashboard_stale_id_witness :
  exists d,
    kpi_dashboard (env_at "" "2024-05-21T08:00:00" "2024-05") testcorp_store
      "gone" 5000 = Ok d /\
    d_startup d = "Unknown"%string.
Proof.
  apply kpi_dashboard_stale_id.
  intros s [<- | []]. discriminate.
Defined.

(** ** Startups do not see each other's rows *)

Lemma filter_both {A : Type} (f g : A -> bool) (l : list A) :
  filter (fun x => f x && g x) l = filter g (filter f l).
Proof.
  induction l as [| x l IH]; simpl; [reflexivity |].
  destruct (f x); simpl; [destruct (g x) |]; rewrite IH; reflexivity.
Qed.

Lemma filter_three {A : Type} (f g h : A -> bool) (l : list A) :
  filter (fun x => f x && g x && h x) l =
  filter (fun x => g x && h x) (filter f l).
Proof.
  rewrite <- filter_both. apply filter_ext. intros x.
  symmetry. apply andb_assoc.
Qed.

Lemma filter_app_other {A : Type} (f : A -> bool) (l : list A) (r : A) :
  f r = false -> filter f (l ++ [r]) = filter f l.
Proof. intros H. rewrite filter_app. simpl. rewrite H. apply app_nil_r. Qed.

Lemma find_app_other {A : Type} (f : A -> bool) (l : list A) (r : A) :
  f r = false -> find f (l ++ [r]) = find f l.
Proof.
  intros H. induction l as [| x l IH]; simpl.
  - rewrite H. reflexivity.
  - destruct (f x); [reflexivity | exact IH].
Qed.

Lemma rows_agree_refl (st : Store) (startup_id : string) :
  rows_agree st st startup_id.
Proof. repeat split. Qed.

(** The queries read the rows of their startup only. *)
Lemma rows_agree_same_view (st st' : Store) (startup_id : string) :
  rows_agree st st' startup_id -> same_view st st' startup_id.
Proof.
  intros (Hs & Hm & Hc & He & Hf).
  assert (Hmrr : calculate_mrr st' startup_id = calculate_mrr st startup_id).
  { unfold calculate_mrr.
    rewrite !(filter_both (fun c => String.eqb (c_startup_id c) startup_id)
                (fun c => String.eqb (c_status c) "active")).
    rewrite Hc. reflexivity. }
  assert (Harr : calculate_arr st' startup_id = calculate_arr st startup_id).
  { unfold calculate_arr. rewrite Hmrr. reflexivity. }
  assert (Hchurn : forall env p, calculate_churn_rate env st' startup_id p =
                                 calculate_churn_rate env st startup_id p).
  { intros env p. unfold calculate_churn_rate.
    rewrite !(filter_both (fun c => String.eqb (c_startup_id c) startup_id)
                (fun c => Sql.text_lt (c_started_at c)
                            (Py.or_str p (utcnow_year_month env) ++ "-01"))).
    rewrite !(filter_three (fun c => String.eqb (c_startup_id c) startup_id)
                (fun c => String.eqb (c_status c) "churned")
                (fun c => match c_churned_at c with
                          | Some t => Sql.like (Py.or_str p (utcnow_year_month env) ++ "%") t
                          | None => false
                          end)).
    rewrite Hc. reflexivity. }
  assert (Hrun : forall burn, calculate_runway st' startup_id burn =
                              calculate_runway st startup_id burn).
  { intros burn. unfold calculate_runway. rewrite Hmrr, Hf. reflexivity. }
  assert (Hhc : headcount st' startup_id = headcount st startup_id).
  { unfold headcount.
    rewrite !(filter_both (fun e => String.eqb (e_startup_id e) startup_id)
                (fun e => match e_left_at e with None => true | Some _ => false end)).
    rewrite He. reflexivity. }
  split; [exact Hmrr |]. split; [exact Harr |]. split; [exact Hchurn |].
  split; [exact Hrun |]. split; [exact Hhc |]. split.
  - intros env burn. unfold kpi_dashboard.
    rewrite Hmrr, Harr, Hchurn, Hrun, Hhc, Hs. reflexivity.
  - intros metric_type. unfold metric_history.
    rewrite !(filter_both (fun m => String.eqb (m_startup_id m) startup_id)
                (fun m => String.eqb (m_metric_type m) metric_type)).
    rewrite Hm. reflexivity.
Qed.

Lemma churn_customer_rows_agree (env : Env) (st : Store)
    (customer_id startup_id : string) :
  existsb (fun c => String.eqb (c_id c) customer_id
                    && String.eqb (c_startup_id c) startup_id)
    (customers st) = false ->
  rows_agree st (after (churn_customer env st customer_id) st) startup_id.
Proof.
  intros H. simpl. unfold rows_agree. simpl.
  do 2 (split; [reflexivity |]). split; [| split; reflexivity].
  induction (customers st) as [| c l IH]; simpl in *; [reflexivity |].
  apply orb_false_iff in H. destruct H as (Hc & Hl).
  destruct (String.eqb (c_id c) customer_id); simpl in *.
  - rewrite Hc. apply IH. exact Hl.
  - rewrite (IH Hl). reflexivity.
Qed.

Lemma exec_rows_agree (env : Env) (c : call) (st : Store) (startup_id : string) :
  touches env st c startup_id = false ->
  rows_agree st (exec env c st) startup_id.
Proof.
  destruct c as [n s f | a mt v p nts | a n v pl | customer_id | a n r d v
                | a rn v val inv]; simpl; intros H.
  - unfold create_startup, Sql.insert.
    destruct (existsb _ (startups st)); simpl; [apply rows_agree_refl |].
    unfold rows_agree. simpl. split; [| repeat split].
    apply find_app_other. exact H.
  - unfold record_metric. destruct (Sql.real v); simpl; [| apply rows_agree_refl].
    unfold Sql.insert. destruct (existsb _ (metrics st)); simpl;
      [apply rows_agree_refl |].
    unfold rows_agree. simpl. split; [reflexivity |]. split; [| repeat split].
    apply filter_app_other. exact H.
  - unfold add_customer. destruct (Sql.real v); simpl; [| apply rows_agree_refl].
    unfold Sql.insert. destruct (existsb _ (customers st)); simpl;
      [apply rows_agree_refl |].
    unfold rows_agree. simpl. do 2 (split; [reflexivity |]).
    split; [| repeat split].
    apply filter_app_other. exact H.
  - apply churn_customer_rows_agree. exact H.
  - unfold add_employee. destruct (Sql.real v); simpl; [| apply rows_agree_refl].
    unfold Sql.insert. destruct (existsb _ (employees st)); simpl;
      [apply rows_agree_refl |].
    unfold rows_agree. simpl. do 3 (split; [reflexivity |]).
    split; [| reflexivity].
    apply filter_app_other. exact H.
  - unfold add_funding. destruct (Sql.real v); simpl; [| apply rows_agree_refl].
    unfold Sql.insert. destruct (existsb _ (funding_rounds st)); simpl;
      [apply rows_agree_refl |].
    unfold rows_agree. simpl. do 4 (split; [reflexivity |]).
    apply filter_app_other. exact H.
Qed.

(** X2: a write does not cross startups.  When a call creates another
    startup, inserts a row for another startup, or churns a customer of
    another startup, every query about this startup ([calculate_mrr],
    [calculate_arr], [calculate_churn_rate], [calculate_runway], [headcount],
    [kpi_dashboard], [metric_history]) answers after the call what it answered
    before. *)
Theorem writes_do_not_cross_startups (env : Env) (c : call) (st : Store)
    (startup_id : string) :
  touches env st c startup_id = false ->
  same_view st (exec env c st) startup_id.
Proof.
  intros H. apply rows_agree_same_view. apply exec_rows_agree. exact H.
Qed.

Lemma writes_do_not_cross_startups_witness :
  calculate_mrr
    (exec (env_at "c8" "2024-05-20T11:00:00" "2024-05")
       (AddCustomer "s2" "Other" 999 "monthly") three_customer_store) "s1"
  = Ok 800%float.
Proof.
  destruct (writes_do_not_cross_startups
              (env_at "c8" "2024-05-20T11:00:00" "2024-05")
              (AddCustomer "s2" "Other" 999 "monthly") three_customer_store "s1")
    as (H & _).
  - reflexivity.
  - rewrite H. reflexivity.
Defined.

(** ** Identifiers already in use *)

Lemma existsb_eqb_true {row : Type} (key : row -> string) (k : string)
    (table : list row) :
  In k (map key table) ->
  existsb (fun x => String.eqb (key x) k) table = true.
Proof.
  intros H. apply in_map_iff in H. destruct H as (x & Hk & Hin).
  apply existsb_exists. exists x. split; [exact Hin |].
  apply String.eqb_eq. exact Hk.
Qed.

(** X18: when the generated identifier is already the key of a row of the
    table, the insert is refused: [create_startup], [record_metric],
    [add_customer], [add_employee] and [add_funding] raise IntegrityError,
    whatever their other arguments, and the store stays as it was. *)
Theorem used_identifier_is_refused (env : Env) (st : Store)
    (startup_id name plan stage role department round_name metric_type notes : string)
    (founded_date p : option string) (v : float) (valuation : option float)
    (investors : option (list string)) :
  (In (uuid4 env) (map s_id (startups st)) ->
   create_startup env st name stage founded_date = Raise IntegrityError /\
   exec env (CreateStartup name stage founded_date) st = st) /\
  (In (uuid4 env) (map m_id (metrics st)) ->
   record_metric env st startup_id metric_type v p notes = Raise IntegrityError /\
   exec env (RecordMetric startup_id metric_type v p notes) st = st) /\
  (In (uuid4 env) (map c_id (customers st)) ->
   add_customer env st startup_id name v plan = Raise IntegrityError /\
   exec env (AddCustomer startup_id name v plan) st = st) /\
  (In (uuid4 env) (map e_id (employees st)) ->
   add_employee env st startup_id name role department v = Raise IntegrityError /\
   exec env (AddEmployee startup_id name role department v) st = st) /\
  (In (uuid4 env) (map f_id (funding_rounds st)) ->
   add_funding env st startup_id round_name v valuation investors
     = Raise IntegrityError /\
   exec env (AddFunding startup_id round_name v valuation investors) st = st).
Proof.
  split; [| split; [| split; [| split]]]; intros H;
    apply existsb_eqb_true in H; simpl exec.
  - unfold create_startup, Sql.insert. simpl. rewrite H. split; reflexivity.
  - unfold record_metric, Sql.insert.
    destruct (Sql.real v); simpl; [rewrite H |]; split; reflexivity.
  - unfold add_customer, Sql.insert.
    destruct (Sql.real v); simpl; [rewrite H |]; split; reflexivity.
  - unfold add_employee, Sql.insert.
    destruct (Sql.real v); simpl; [rewrite H |]; split; reflexivity.
  - unfold add_funding, Sql.insert.
    destruct (Sql.real v); simpl; [rewrite H |]; split; reflexivity.
Qed.

Lemma used_identifier_is_refused_witness :
  add_customer (env_at "c0" "2024-05-20T11:00:00" "2024-05") one_customer_store
    "s1" "Twin" 10 "monthly" = Raise IntegrityError.
Proof.
  destruct (used_identifier_is_refused
              (env_at "c0" "2024-05-20T11:00:00" "2024-05") one_customer_store
              "s1" "Twin" "monthly" "seed" "Engineer" "eng" "Seed" "nps" ""
              None None 10 None None) as (_ & _ & H & _).
  destruct H as (H & _); [left; reflexivity | exact H].
Defined.

(** ** A new customer and the churn of its month *)

(** X19: a customer added on a day of a month changes nothing in the churn
    of that month: it started within the period, so it is not in the cohort
    at the start, and it is active, so it is not counted as churned. *)
Theorem add_customer_keeps_churn_of_month (env env' : Env) (st st' : Store)
    (startup_id name plan : string) (v : float) (d : customer_dict)
    (p : option string) (day : nat) (time : string) (startup_id' : string) :
  (1 <= day <= 31)%nat ->
  utcnow_isoformat env =
    timestamp_in (Py.or_str p (utcnow_year_month env')) day time ->
  add_customer env st startup_id name v plan = Ok (d, st') ->
  calculate_churn_rate env' st' startup_id' p =
  calculate_churn_rate env' st startup_id' p.
Proof.
  intros Hday Hclock.
  unfold add_customer. destruct (Sql.real v) as [x |]; simpl; [| discriminate].
  unfold Sql.insert. destruct (existsb _ _); simpl; [discriminate |].
  intros H. injection H as _ <-.
  unfold calculate_churn_rate. simpl customers.
  rewrite !filter_app. simpl.
  rewrite Hclock, (timestamp_in_not_before _ day time Hday).
  rewrite !andb_false_r. simpl. rewrite !app_nil_r. reflexivity.
Qed.

Lemma add_customer_keeps_churn_of_month_witness :
  exists d st',
    add_customer (env_at "c5" (timestamp_in "2024-05" 20 "11:00:00") "2024-05")
      one_customer_store "s1" "Newcomer" 75 "monthly" = Ok (d, st') /\
    calculate_churn_rate (env_at "" "2024-05-21T08:00:00" "2024-05") st' "s1" None
    = calculate_churn_rate (env_at "" "2024-05-21T08:00:00" "2024-05")
        one_customer_store "s1" None.
Proof.
  do 2 eexists. split; [reflexivity |].
  eapply (add_customer_keeps_churn_of_month
           (env_at "c5" (timestamp_in "2024-05" 20 "11:00:00") "2024-05")
           (env_at "" "2024-05-21T08:00:00" "2024-05")
           one_customer_store _ "s1" "Newcomer" "monthly" 75 _ None 20 "11:00:00").
  - lia.
  - reflexivity.
  - reflexivity.
Defined.
